(** * BLE session lifecycle of [src/screens/Home.js]

    The React component [Home] keeps six hook cells ([devices], [isScanning],
    [connectedDevice], [isConnecting], [deviceInfo], [heartRate]) and one
    plain local variable, [hrSubscription], that is declared in the component
    body and therefore exists once per render.  Its handlers are [async]
    functions over the [react-native-ble-plx] manager.

    The embedding below keeps that shape:
    - the hook cells are a record [State]; a render captures a snapshot of it
      together with the index of its own [hrSubscription] cell;
    - an [async] function is a [Task]: a tree of synchronous steps on the
      [World] and of requests to the transport, whose answers are supplied by
      an [Oracle]; [try]/[catch]/[finally] are combinators on tasks;
    - [run] executes a task to completion, [advance] executes it up to the
      next [await], so that another handler or a transport event can be
      interleaved there.

    Console output is recorded by its first argument (and the error message
    for [console.error]).  The permission request, the mount effect and the
    JSX are presentation and are not modelled. *)

From Stdlib.Strings Require Import String Ascii Byte.
From Stdlib Require Import List ZArith NArith Bool Lia.
Import ListNotations.
Open Scope string_scope.

(** ** JavaScript values *)

(** A thrown value; the handlers only ever read [error.message]. *)
Record JsError := mkError { message : string }.

Inductive result (A : Type) : Type :=
| Ok (a : A)
| Throw (e : JsError).
Arguments Ok {A} a.
Arguments Throw {A} e.

(** [react-native-ble-plx] objects, reduced to the fields the component reads.
    A nullable string is an [option string]. *)
Record Device := mkDevice { id : string; name : option string }.

Record Service := mkService { service_uuid : string }.

Record Characteristic := mkCharacteristic {
  uuid : string;
  isReadable : bool;
  isWritableWithResponse : bool;
  isNotifiable : bool;
  value : option string          (* base64 text, or null *)
}.

Definition Subscription := nat.

Inductive AdapterState :=
| Unknown | Resetting | Unsupported | Unauthorized | PoweredOff | PoweredOn.

Definition is_PoweredOn (s : AdapterState) : bool :=
  match s with PoweredOn => true | _ => false end.

(** Truthiness of a nullable string: [null] and [''] are falsy. *)
Definition truthy (s : option string) : bool :=
  match s with
  | Some s => negb (s =? "")
  | None => false
  end.

(** [a || b] on a nullable string and a string. *)
Definition or_else (a : option string) (b : string) : string :=
  match a with
  | Some s => if s =? "" then b else s
  | None => b
  end.

(** A battery reading is the string ['N/A'] or a number. *)
Inductive JsValue :=
| VStr (s : string)
| VNum (n : Z).

Record DeviceInfo := mkDeviceInfo { manufacturer : string; battery : JsValue }.

(** ** [Buffer] *)

(** The two codecs of the [buffer] package that the component calls.  They are
    library code, so the component is modelled over any implementation;
    [from_base64_empty] is the one fact about them that it relies on (the
    encoding of a payload is the empty string only for the empty payload). *)
Class BufferCodec := {
  from_base64 : string -> list byte;
  toString_utf8 : list byte -> string;
  from_base64_empty : from_base64 "" = []
}.

Definition TypeError := mkError "The first argument must be of type string".
Definition RangeError := mkError "The value of offset is out of range".

(** [Buffer.from(v, 'base64')]: throws on [null]. *)
Definition Buffer_from `{BufferCodec} (v : option string) : result (list byte) :=
  match v with
  | Some s => Ok (from_base64 s)
  | None => Throw TypeError
  end.

Definition byte_to_Z (b : byte) : Z := Z.of_N (Byte.to_N b).

(** [buf.readUInt8(offset)]: throws when [offset] is past the end. *)
Definition readUInt8 (buf : list byte) (offset : nat) : result Z :=
  match nth_error buf offset with
  | Some b => Ok (byte_to_Z b)
  | None => Throw RangeError
  end.

(** A reference implementation of the codecs, used to run the component on
    concrete payloads. *)
Module Base64.

Definition sextet (c : ascii) : option N :=
  let n := N_of_ascii c in
  if ((65 <=? n) && (n <=? 90))%N then Some (n - 65)%N
  else if ((97 <=? n) && (n <=? 122))%N then Some (n - 71)%N
  else if ((48 <=? n) && (n <=? 57))%N then Some (n + 4)%N
  else if ((n =? 43) || (n =? 45))%N then Some 62%N
  else if ((n =? 47) || (n =? 95))%N then Some 63%N
  else None.

(** Text up to the first ['='], characters outside the alphabet skipped. *)
Fixpoint sextets (s : string) : list N :=
  match s with
  | EmptyString => []
  | String c s' =>
      if Ascii.eqb c "="%char then []
      else match sextet c with
           | Some n => n :: sextets s'
           | None => sextets s'
           end
  end.

Definition octet (n : N) : byte :=
  match Byte.of_N (n mod 256) with
  | Some b => b
  | None => x00
  end.

Fixpoint octets (l : list N) : list byte :=
  match l with
  | a :: b :: c :: d :: rest =>
      let w := (a * 262144 + b * 4096 + c * 64 + d)%N in
      octet (w / 65536) :: octet (w / 256) :: octet w :: octets rest
  | [a; b; c] =>
      let w := (a * 262144 + b * 4096 + c * 64)%N in
      [octet (w / 65536); octet (w / 256)]
  | [a; b] =>
      let w := (a * 262144 + b * 4096)%N in
      [octet (w / 65536)]
  | _ => []
  end.

Definition decode (s : string) : list byte := octets (sextets s).

End Base64.

#[export] Instance ReferenceCodec : BufferCodec := {|
  from_base64 := Base64.decode;
  toString_utf8 := string_of_list_byte;
  from_base64_empty := eq_refl
|}.

(** ** Component state *)

(** The six [useState] cells. *)
Record State := mkState {
  devices : list Device;
  isScanning : bool;
  connectedDevice : option Device;
  isConnecting : bool;
  deviceInfo : option DeviceInfo;
  heartRate : option Z
}.

(** Initial values of the [useState] calls. *)
Definition initialState : State := mkState [] false None false None None.

(** What one execution of the component body binds: the values of the hook
    cells at that time, and a new [hrSubscription] variable, kept in the
    world's store under the index [rid]. *)
Record Render := mkRender { rid : nat; snap : State }.

(** ** Transport requests *)

(** Calls into the BLE library whose outcome is decided outside the
    component. *)
Inductive Request :=
| manager_state
| manager_connectToDevice (device_id : string)
| discoverAllServicesAndCharacteristics (d : Device)
| services (d : Device)
| characteristics (s : Service)
| readCharacteristicForService (d : Device) (service char : string)
| monitorCharacteristicForService (d : Device) (service char : string)
| remove (s : Subscription)
| cancelConnection (d : Device).

Definition Response (q : Request) : Type :=
  match q with
  | manager_state => AdapterState
  | manager_connectToDevice _ => Device
  | discoverAllServicesAndCharacteristics _ => Device
  | services _ => list Service
  | characteristics _ => list Characteristic
  | readCharacteristicForService _ _ _ => Characteristic
  | monitorCharacteristicForService _ _ _ => Subscription
  | remove _ => unit
  | cancelConnection _ => Device
  end.

(** Requests that return a promise which the component awaits; the other two
    return at once. *)
Definition awaited (q : Request) : bool :=
  match q with
  | monitorCharacteristicForService _ _ _ | remove _ => false
  | _ => true
  end.

(** The behaviour of the transport: the outcome of every request. *)
Definition Oracle := forall q : Request, result (Response q).

(** Everything the component does that is visible outside it, in order. *)
Inductive Effect :=
| Call (q : Request)
| manager_startDeviceScan
| manager_stopDeviceScan
| setTimeout (ms : Z)
| Alert_alert (title text : string)
| console_log (text : string)
| console_error (text detail : string).

Record World := mkWorld {
  hooks : State;
  hrSubscription : list (option Subscription);  (* one variable per render *)
  monitors : list Subscription;                 (* listeners the library holds *)
  trace : list Effect
}.

Definition initialWorld : World := mkWorld initialState [] [] [].

(** The component body runs: it reads the hook cells and declares
    [let hrSubscription = null]. *)
Definition render (w : World) : Render * World :=
  (mkRender (length (hrSubscription w)) (hooks w),
   mkWorld (hooks w) (hrSubscription w ++ [None]) (monitors w) (trace w)).

(** ** Tasks *)

Inductive Task (A : Type) : Type :=
| Ret (a : A)
| Raise (e : JsError)
| Act (f : World -> World) (k : Task A)
| Read (k : World -> Task A)
| Ask (q : Request) (k : result (Response q) -> Task A).
Arguments Ret {A} a.
Arguments Raise {A} e.
Arguments Act {A} f k.
Arguments Read {A} k.
Arguments Ask {A} q k.

Fixpoint bind {A B} (t : Task A) (f : A -> Task B) : Task B :=
  match t with
  | Ret a => f a
  | Raise e => Raise e
  | Act g k => Act g (bind k f)
  | Read k => Read (fun w => bind (k w) f)
  | Ask q k => Ask q (fun r => bind (k r) f)
  end.

Declare Scope task_scope.
Delimit Scope task_scope with task.
Notation "x <- t ;; k" := (bind t (fun x => k))
  (at level 61, t at next level, right associativity) : task_scope.
Notation "t ;; k" := (bind t (fun _ => k))
  (at level 61, right associativity) : task_scope.
Open Scope task_scope.

(** [try { t } catch (error) { h error }] *)
Fixpoint try_catch {A} (t : Task A) (h : JsError -> Task A) : Task A :=
  match t with
  | Ret a => Ret a
  | Raise e => h e
  | Act g k => Act g (try_catch k h)
  | Read k => Read (fun w => try_catch (k w) h)
  | Ask q k => Ask q (fun r => try_catch (k r) h)
  end.

(** [try { t } finally { f }] *)
Fixpoint try_finally {A} (t : Task A) (f : Task unit) : Task A :=
  match t with
  | Ret a => f ;; Ret a
  | Raise e => f ;; Raise e
  | Act g k => Act g (try_finally k f)
  | Read k => Read (fun w => try_finally (k w) f)
  | Ask q k => Ask q (fun r => try_finally (k r) f)
  end.

Definition emit (e : Effect) (w : World) : World :=
  mkWorld (hooks w) (hrSubscription w) (monitors w) (trace w ++ [e]).

Arguments emit e w /.

Definition effect (e : Effect) : Task unit := Act (emit e) (Ret tt).

Definition lift {A} (r : result A) : Task A :=
  match r with
  | Ok a => Ret a
  | Throw e => Raise e
  end.

(** A library call: recorded in the trace, and a rejection is a throw. *)
Definition call (q : Request) : Task (Response q) :=
  Act (emit (Call q)) (Ask q lift).

(** Runs a task to completion against a transport. *)
Fixpoint run {A} (t : Task A) (o : Oracle) (w : World) : result A * World :=
  match t with
  | Ret a => (Ok a, w)
  | Raise e => (Throw e, w)
  | Act f k => run k o (f w)
  | Read k => run (k w) o w
  | Ask q k => run (k (o q)) o w
  end.

(** Runs a task up to its next [await]. *)
Fixpoint advance {A} (t : Task A) (o : Oracle) (w : World) : Task A * World :=
  match t with
  | Ret a => (Ret a, w)
  | Raise e => (Raise e, w)
  | Act f k => advance k o (f w)
  | Read k => advance (k w) o w
  | Ask q k => if awaited q then (Ask q k, w) else advance (k (o q)) o w
  end.

(** The promise that a suspended task waits for settles. *)
Definition resume {A} (t : Task A) (o : Oracle) : Task A :=
  match t with
  | Ask q k => k (o q)
  | _ => t
  end.

(** A task that waits at an [await]. *)
Definition suspended {A} (t : Task A) : bool :=
  match t with
  | Ask _ _ => true
  | _ => false
  end.

(** A task that has returned or thrown. *)
Definition finished {A} (t : Task A) : bool :=
  match t with
  | Ret _ | Raise _ => true
  | _ => false
  end.

(** The task as it stands after [n] of its awaits have settled: waiting at
    the next one, or finished. *)
Fixpoint settle {A} (n : nat) (t : Task A) (o : Oracle) (w : World)
  : Task A * World :=
  match n with
  | O => advance t o w
  | S n' => let (t', w') := advance t o w in settle n' (resume t' o) o w'
  end.

(** [for (const x of l) { body x }] *)
Fixpoint for_of {A} (l : list A) (body : A -> Task unit) : Task unit :=
  match l with
  | [] => Ret tt
  | x :: l' => body x ;; for_of l' body
  end.

(** ** Hook setters and the per-render variable *)

Definition with_hooks (f : State -> State) (w : World) : World :=
  mkWorld (f (hooks w)) (hrSubscription w) (monitors w) (trace w).
Arguments with_hooks f w /.

(** [setDevices(prev => f(prev))]; [setDevices(v)] is the constant update. *)
Definition setDevices (f : list Device -> list Device) : Task unit :=
  Act (with_hooks (fun s =>
         mkState (f (devices s)) (isScanning s) (connectedDevice s)
                 (isConnecting s) (deviceInfo s) (heartRate s)))
      (Ret tt).

Definition setIsScanning (v : bool) : Task unit :=
  Act (with_hooks (fun s =>
         mkState (devices s) v (connectedDevice s)
                 (isConnecting s) (deviceInfo s) (heartRate s)))
      (Ret tt).

Definition setConnectedDevice (v : option Device) : Task unit :=
  Act (with_hooks (fun s =>
         mkState (devices s) (isScanning s) v
                 (isConnecting s) (deviceInfo s) (heartRate s)))
      (Ret tt).

Definition setIsConnecting (v : bool) : Task unit :=
  Act (with_hooks (fun s =>
         mkState (devices s) (isScanning s) (connectedDevice s)
                 v (deviceInfo s) (heartRate s)))
      (Ret tt).

Definition setDeviceInfo (v : option DeviceInfo) : Task unit :=
  Act (with_hooks (fun s =>
         mkState (devices s) (isScanning s) (connectedDevice s)
                 (isConnecting s) v (heartRate s)))
      (Ret tt).

Definition setHeartRate (v : option Z) : Task unit :=
  Act (with_hooks (fun s =>
         mkState (devices s) (isScanning s) (connectedDevice s)
                 (isConnecting s) (deviceInfo s) v))
      (Ret tt).

Fixpoint store {A} (i : nat) (v : A) (l : list A) : list A :=
  match l, i with
  | [], _ => []
  | _ :: l', O => v :: l'
  | x :: l', S i' => x :: store i' v l'
  end.

(** Reading and assigning the [hrSubscription] variable of render [r]. *)
Definition get_hrSubscription (r : Render) : Task (option Subscription) :=
  Read (fun w => Ret (nth (rid r) (hrSubscription w) None)).

Definition set_hrSubscription (r : Render) (v : option Subscription) : Task unit :=
  Act (fun w => mkWorld (hooks w) (store (rid r) v (hrSubscription w))
                        (monitors w) (trace w))
      (Ret tt).

(** ** Library calls with an effect on the listener registry *)

Definition listening (s : Subscription) (w : World) : bool :=
  existsb (Nat.eqb s) (monitors w).

(** [device.monitorCharacteristicForService(service, char, listener)]: the
    library keeps the listener until the subscription is removed. *)
Definition monitor (d : Device) (service char : string) : Task Subscription :=
  s <- call (monitorCharacteristicForService d service char) ;;
  Act (fun w => mkWorld (hooks w) (hrSubscription w) (s :: monitors w) (trace w))
      (Ret s).

(** [subscription.remove()] *)
Definition subscription_remove (s : Subscription) : Task unit :=
  call (remove s) ;;
  Act (fun w => mkWorld (hooks w) (hrSubscription w)
                        (filter (fun x => negb (Nat.eqb s x)) (monitors w))
                        (trace w))
      (Ret tt).

(** ** The component's functions *)

Definition DEVICE_INFORMATION := "0000180a-0000-1000-8000-00805f9b34fb".
Definition MANUFACTURER_NAME := "00002a29-0000-1000-8000-00805f9b34fb".
Definition BATTERY_SERVICE := "0000180f-0000-1000-8000-00805f9b34fb".
Definition BATTERY_LEVEL := "00002a19-0000-1000-8000-00805f9b34fb".
Definition HEART_RATE_SERVICE := "0000180d-0000-1000-8000-00805f9b34fb".
Definition HEART_RATE_MEASUREMENT := "00002a37-0000-1000-8000-00805f9b34fb".

Definition string_of_bool (b : bool) : string :=
  if b then "true" else "false".

(** [ensureBluetoothOn], lines 65-76. *)
Definition ensureBluetoothOn : Task bool :=
  state <- call manager_state ;;
  effect (console_log "Bluetooth initial state:") ;;
  if negb (is_PoweredOn state) then
    effect (Alert_alert "Bluetooth is Off"
                        "Please turn on Bluetooth and try again.") ;;
    Ret false
  else Ret true.

(** The updater of lines 103-108: [prev => exists ? prev : [...prev, d]]. *)
Definition addDevice (d : Device) (prev : list Device) : list Device :=
  let exists_ := existsb (fun x => id x =? id d) prev in
  if negb exists_ then (prev ++ [d])%list else prev.

(** The listener passed to [manager.startDeviceScan], lines 95-110.  The
    updater logs when the device is already listed. *)
Definition scanListener (error : option JsError) (scannedDevice : option Device)
  : Task unit :=
  match error with
  | Some e =>
      effect (console_error "Scan error:" (message e)) ;;
      setIsScanning false
  | None =>
      match scannedDevice with
      | Some d =>
          if truthy (name d) then
            Read (fun w =>
              if existsb (fun x => id x =? id d) (devices (hooks w))
              then effect (console_log "devices----")
              else Ret tt) ;;
            setDevices (addDevice d)
          else Ret tt
      | None => Ret tt
      end
  end.

(** The callback passed to [setTimeout], lines 114-118. *)
Definition scanTimeout : Task unit :=
  effect (console_log "Stopping BLE scan...") ;;
  effect manager_stopDeviceScan ;;
  setIsScanning false.

(** [scanDevices], lines 79-119. *)
Definition scanDevices (r : Render) : Task unit :=
  if isScanning (snap r) then Ret tt
  else
    ready <- ensureBluetoothOn ;;
    if negb ready then Ret tt
    else
      setDevices (fun _ => []) ;;
      setIsScanning true ;;
      setConnectedDevice None ;;
      setDeviceInfo None ;;
      setHeartRate None ;;
      effect (console_log "Starting BLE scan...") ;;
      effect manager_startDeviceScan ;;
      effect (setTimeout 5000).

(** [resetList], lines 122-127. *)
Definition resetList : Task unit :=
  setDevices (fun _ => []) ;;
  setConnectedDevice None ;;
  setDeviceInfo None ;;
  setHeartRate None.

Section WithCodec.
Context `{Codec : BufferCodec}.

(** [safeRead], lines 193-200. *)
Definition safeRead (device : Device) (service char : string) : Task string :=
  try_catch
    (res <- call (readCharacteristicForService device service char) ;;
     buf <- lift (Buffer_from (value res)) ;;
     Ret (toString_utf8 buf))
    (fun _ => Ret "N/A").

(** The battery block, lines 208-217: the value [batteryLevel] holds when
    the block is left. *)
Definition readBatteryLevel (device : Device) : Task JsValue :=
  try_catch
    (battery <- call (readCharacteristicForService
                        device BATTERY_SERVICE BATTERY_LEVEL) ;;
     buf <- lift (Buffer_from (value battery)) ;;
     n <- lift (readUInt8 buf 0) ;;
     Ret (VNum n))
    (fun _ => Ret (VStr "N/A")).

(** [readDeviceInfoAndBattery], lines 191-229. *)
Definition readDeviceInfoAndBattery (device : Device) : Task unit :=
  try_catch
    (manufacturer <- safeRead device DEVICE_INFORMATION MANUFACTURER_NAME ;;
     batteryLevel <- readBatteryLevel device ;;
     effect (console_log "Manufacturer:") ;;
     effect (console_log "Battery Level:") ;;
     setDeviceInfo (Some (mkDeviceInfo manufacturer batteryLevel)))
    (fun error =>
       effect (console_error "Error reading device info or battery:"
                             (message error))).

(** The listener passed to [monitorCharacteristicForService],
    lines 239-252. *)
Definition heartRateListener (error : option JsError)
           (characteristic : option Characteristic) : Task unit :=
  match error with
  | Some e => effect (console_error "Heart rate monitor error:" (message e))
  | None =>
      let v := match characteristic with
               | Some c => value c
               | None => None
               end in
      if truthy v then
        buffer <- lift (Buffer_from v) ;;
        bpm <- lift (readUInt8 buffer 1) ;;
        setHeartRate (Some bpm) ;;
        effect (console_log "0Heart Rate:")
      else Ret tt
  end.

(** [subscribeToHeartRate], lines 232-257. *)
Definition subscribeToHeartRate (r : Render) (device : Device) : Task unit :=
  try_catch
    (effect (console_log "Subscribing to heart rate notifications...") ;;
     s <- monitor device HEART_RATE_SERVICE HEART_RATE_MEASUREMENT ;;
     set_hrSubscription r (Some s))
    (fun e =>
       effect (console_error "Failed to subscribe to heart rate:" (message e))).

(** The debugging loop of lines 144-154. *)
Definition logCharacteristic (c : Characteristic) : Task unit :=
  effect (console_log ("Characteristic UUID: " ++ uuid c)) ;;
  effect (console_log ("isReadable: " ++ string_of_bool (isReadable c))) ;;
  effect (console_log ("isWritableWithResponse: "
                         ++ string_of_bool (isWritableWithResponse c))) ;;
  effect (console_log ("isNotifiable: " ++ string_of_bool (isNotifiable c))).

Definition logService (s : Service) : Task unit :=
  effect (console_log ("Service UUID: " ++ service_uuid s)) ;;
  cs <- call (characteristics s) ;;
  for_of cs logCharacteristic.

(** [connectToDevice], lines 130-171.  The early [return] of line 132 sits
    inside the [try], so the [finally] block runs for it as well. *)
Definition connectToDevice (r : Render) (device : Device) : Task unit :=
  try_finally
    (try_catch
       (if isConnecting (snap r) then Ret tt
        else
          setIsConnecting true ;;
          effect (console_log "Connecting to device:") ;;
          effect manager_stopDeviceScan ;;
          connected <- call (manager_connectToDevice (id device)) ;;
          call (discoverAllServicesAndCharacteristics connected) ;;
          effect (console_log "Connected to device:") ;;
          ss <- call (services connected) ;;
          for_of ss logService ;;
          setConnectedDevice (Some connected) ;;
          readDeviceInfoAndBattery connected ;;
          subscribeToHeartRate r connected ;;
          effect (Alert_alert "Connected"
                    ("Connected to " ++ or_else (name connected) (id connected))))
       (fun error =>
          effect (console_error "Connection error:" (message error)) ;;
          effect (Alert_alert "Connection Failed" (message error))))
    (setIsConnecting false ;;
     setIsScanning false).

(** What remains of the [try] block of [connectToDevice] once
    [await manager.connectToDevice(device.id)] has settled with [a]. *)
Definition afterConnect (r : Render) (a : result Device) : Task unit :=
  try_catch
    (connected <- lift a ;;
     call (discoverAllServicesAndCharacteristics connected) ;;
     effect (console_log "Connected to device:") ;;
     ss <- call (services connected) ;;
     for_of ss logService ;;
     setConnectedDevice (Some connected) ;;
     readDeviceInfoAndBattery connected ;;
     subscribeToHeartRate r connected ;;
     effect (Alert_alert "Connected"
               ("Connected to " ++ or_else (name connected) (id connected))))
    (fun error =>
       effect (console_error "Connection error:" (message error)) ;;
       effect (Alert_alert "Connection Failed" (message error))).

(** [disconnectDevice], lines 174-188. *)
Definition disconnectDevice (r : Render) : Task unit :=
  match connectedDevice (snap r) with
  | Some dev =>
      try_finally
        (try_catch
           (hr <- get_hrSubscription r ;;
            match hr with
            | Some s => subscription_remove s
            | None => Ret tt
            end ;;
            call (cancelConnection dev) ;;
            effect (Alert_alert "Disconnected"
                                "Device disconnected successfully."))
           (fun error =>
              effect (console_error "Disconnection error:" (message error))))
        (setConnectedDevice None ;;
         setDeviceInfo None ;;
         setHeartRate None)
  | None => Ret tt
  end.

(** ** Events delivered by the library *)

(** A notification for subscription [s]: its listener runs if the library
    still holds it. *)
Definition notify (s : Subscription) (error : option JsError)
           (characteristic : option Characteristic) : Task unit :=
  Read (fun w =>
    if listening s w then heartRateListener error characteristic
    else Ret tt).

End WithCodec.

(** The advertisements of one scan, delivered in arrival order. *)
Definition ScanEvent : Type := option JsError * option Device.

Definition step_scan (o : Oracle) (w : World) (ev : ScanEvent) : World :=
  snd (run (scanListener (fst ev) (snd ev)) o w).

Definition deliver_scan (o : Oracle) (evs : list ScanEvent) (w : World) : World :=
  fold_left (step_scan o) evs w.

(** ** Vocabulary of the specification *)

(** The spec's session state, read off the hook cells. *)
Inductive SessionState := Idle | Connecting | Connected.

Definition sessionState (s : State) : SessionState :=
  if isConnecting s then Connecting
  else match connectedDevice s with
       | Some _ => Connected
       | None => Idle
       end.

(** The advertisements that carry a device with a non-empty name, in arrival
    order. *)
Definition accepted (evs : list ScanEvent) : list Device :=
  flat_map (fun ev : ScanEvent =>
              match ev with
              | (None, Some d) => if truthy (name d) then [d] else []
              | _ => []
              end) evs.

(** Following the spec's words ("each identity exactly once, in first-seen
    order"): the first advertisement of every identity, later ones of the
    same identity dropped. *)
Fixpoint first_seen (ds : list Device) : list Device :=
  match ds with
  | [] => []
  | d :: rest => d :: filter (fun x => negb (id x =? id d)) (first_seen rest)
  end.

(** The outcome of a sub-read of [readDeviceInfo]: the transport's answer,
    decoded; a rejection or a decoding error is a failed sub-read. *)
Definition subread_text `{BufferCodec} (o : Oracle) (d : Device)
           (service char : string) : result string :=
  match o (readCharacteristicForService d service char) with
  | Ok res =>
      match Buffer_from (value res) with
      | Ok buf => Ok (toString_utf8 buf)
      | Throw e => Throw e
      end
  | Throw e => Throw e
  end.

Definition subread_uint8 `{BufferCodec} (o : Oracle) (d : Device)
           (service char : string) : result Z :=
  match o (readCharacteristicForService d service char) with
  | Ok res =>
      match Buffer_from (value res) with
      | Ok buf => readUInt8 buf 0
      | Throw e => Throw e
      end
  | Throw e => Throw e
  end.

(** The raw payload of a battery read, when the read delivers one. *)
Definition battery_payload `{BufferCodec} (o : Oracle) (d : Device)
  : option (list byte) :=
  match o (readCharacteristicForService d BATTERY_SERVICE BATTERY_LEVEL) with
  | Ok res => option_map from_base64 (value res)
  | Throw _ => None
  end.

(** Two worlds that differ at most in the [isConnecting] and [isScanning]
    flags. *)
Definition same_session (w1 w2 : World) : Prop :=
  devices (hooks w1) = devices (hooks w2) /\
  connectedDevice (hooks w1) = connectedDevice (hooks w2) /\
  deviceInfo (hooks w1) = deviceInfo (hooks w2) /\
  heartRate (hooks w1) = heartRate (hooks w2) /\
  hrSubscription w1 = hrSubscription w2 /\
  monitors w1 = monitors w2 /\
  trace w1 = trace w2.

(** A task whose steps neither read nor disturb more than [same_session]
    allows. *)
Fixpoint flag_blind {A} (t : Task A) : Prop :=
  match t with
  | Ret _ | Raise _ => True
  | Act f k =>
      (forall w1 w2, same_session w1 w2 -> same_session (f w1) (f w2)) /\
      flag_blind k
  | Read k =>
      forall w1 w2, same_session w1 w2 -> k w1 = k w2 /\ flag_blind (k w1)
  | Ask q k => forall r, flag_blind (k r)
  end.

Definition is_cancelConnection (e : Effect) : bool :=
  match e with
  | Call (cancelConnection _) => true
  | _ => false
  end.

Definition is_remove (e : Effect) : bool :=
  match e with
  | Call (remove _) => true
  | _ => false
  end.

Definition is_alert (title : string) (e : Effect) : bool :=
  match e with
  | Alert_alert t _ => t =? title
  | _ => false
  end.

(** What the debugging loop of [connectToDevice] emits. *)
Definition is_enumeration (e : Effect) : bool :=
  match e with
  | console_log _ | Call (characteristics _) => true
  | _ => false
  end.

(** ** Concrete sessions *)

Module Scenario.

Definition polar : Device := mkDevice "AA:01" (Some "Polar H10").
Definition strap : Device := mkDevice "BB:02" (Some "Strap").
Definition beacon : Device := mkDevice "CC:03" None.

Definition heartRateService : Service := mkService HEART_RATE_SERVICE.

Definition measurement (v : option string) : Characteristic :=
  mkCharacteristic HEART_RATE_MEASUREMENT false false true v.

(** A transport on which every request succeeds: the manufacturer name is
    "Polar", the battery level 67, the subscription is number 7. *)
Definition transport : Oracle := fun q =>
  match q return result (Response q) with
  | manager_state => Ok PoweredOn
  | manager_connectToDevice i =>
      Ok (if i =? id strap then strap else polar)
  | discoverAllServicesAndCharacteristics d => Ok d
  | services _ => Ok [heartRateService]
  | characteristics _ => Ok [measurement None]
  | readCharacteristicForService _ _ c =>
      if c =? MANUFACTURER_NAME
      then Ok (mkCharacteristic c true false false (Some "UG9sYXI="))
      else Ok (mkCharacteristic c true false false (Some "Qw=="))
  | monitorCharacteristicForService _ _ _ => Ok 7
  | remove _ => Ok tt
  | cancelConnection d => Ok d
  end.

(** [o], with the requests selected by [p] failing with [e]. *)
Definition rejecting (p : Request -> bool) (e : JsError) (o : Oracle) : Oracle :=
  fun q => if p q then Throw e else o q.

Definition is_discover (q : Request) : bool :=
  match q with
  | discoverAllServicesAndCharacteristics _ => true
  | _ => false
  end.

Definition is_read (char : string) (q : Request) : bool :=
  match q with
  | readCharacteristicForService _ _ c => c =? char
  | _ => false
  end.

Definition is_monitor (q : Request) : bool :=
  match q with
  | monitorCharacteristicForService _ _ _ => true
  | _ => false
  end.

Definition is_cancel (q : Request) : bool :=
  match q with
  | cancelConnection _ => true
  | _ => false
  end.

(** [o], with the battery characteristic carrying the base64 text [v]. *)
Definition with_battery (v : string) (o : Oracle) : Oracle := fun q =>
  match q as q' return result (Response q') with
  | readCharacteristicForService d s c =>
      if c =? BATTERY_LEVEL
      then Ok (mkCharacteristic c true false false (Some v))
      else o (readCharacteristicForService d s c)
  | q' => o q'
  end.

Definition timeout : JsError := mkError "Operation timed out".

(** The component is mounted and rendered once. *)
Definition r0 : Render := fst (render initialWorld).
Definition w0 : World := snd (render initialWorld).

(** A tap on [polar]: the attempt runs up to [await manager.connectToDevice]
    and the component is rendered again. *)
Definition attempt : Task unit := fst (advance (connectToDevice r0 polar) transport w0).
Definition r_connecting : Render :=
  fst (render (snd (advance (connectToDevice r0 polar) transport w0))).
Definition w_connecting : World :=
  snd (render (snd (advance (connectToDevice r0 polar) transport w0))).

(** The attempt on [polar] has completed; one notification (72 bpm) has
    arrived, and the component has been rendered again. *)
Definition w_streaming : World :=
  snd (run (notify 7 None (Some (measurement (Some "AEg="))))
           transport
           (snd (run (connectToDevice r0 polar) transport w0))).
Definition r_connected : Render := fst (render w_streaming).
Definition w_connected : World := snd (render w_streaming).

(** A tap on "Disconnect" in that render, run up to
    [await connectedDevice.cancelConnection()]. *)
Definition disconnecting : Task unit :=
  fst (advance (disconnectDevice r_connected) transport w_connected).
Definition w_disconnecting : World :=
  snd (advance (disconnectDevice r_connected) transport w_connected).

(** A scan has started from the first render and three advertisements have
    arrived; the component has been rendered again. *)
Definition adverts : list ScanEvent :=
  [(None, Some polar); (None, Some beacon); (None, Some strap);
   (None, Some polar)].
Definition w_scanning : World :=
  snd (render (deliver_scan transport adverts
                 (snd (run (scanDevices r0) transport w0)))).
Definition r_scanning : Render :=
  fst (render (deliver_scan transport adverts
                 (snd (run (scanDevices r0) transport w0)))).

End Scenario.

(** ** The mount effect and the rendered screen *)

(** The cleanup returned by the effect of lines 47-62.  The effect has an
    empty dependency list, so the cleanup closes over the render in which the
    component was mounted, and over the [subscription] that
    [manager.onStateChange] returned there.  [cancelConnection] is not
    awaited, and [.catch(() => {})] discards its rejection. *)
Definition unmountCleanup (r : Render) (subscription : Subscription) : Task unit :=
  effect manager_stopDeviceScan ;;
  call (remove subscription) ;;
  match connectedDevice (snap r) with
  | Some dev => effect (Call (cancelConnection dev))
  | None => Ret tt
  end ;;
  hr <- get_hrSubscription r ;;
  match hr with
  | Some s => subscription_remove s
  | None => Ret tt
  end.

(** What [renderItem], lines 259-275, shows for one device: the two texts,
    whether the "Connected" mark is there, and whether the row is disabled. *)
Record Row := mkRow {
  row_name : string;
  row_id : string;
  row_connected : bool;
  row_disabled : bool
}.

Definition renderItem (s : State) (item : Device) : Row :=
  let isConnected :=
    match connectedDevice s with
    | Some c => id c =? id item
    | None => false
    end in
  mkRow (or_else (name item) "Unknown Device") (id item)
        isConnected (isConnecting s || isConnected).

(** The [FlatList] of lines 318-323: one row per device, keyed by
    [keyExtractor]. *)
Definition keyExtractor (item : Device) : string := id item.

Definition listRows (s : State) : list (string * Row) :=
  map (fun item => (keyExtractor item, renderItem s item)) (devices s).

(** The [disabled] attribute of the two buttons, lines 285 and 295, and the
    condition under which the "Disconnect" button exists, line 301. *)
Definition scanButton_disabled (s : State) : bool := isScanning s || isConnecting s.
Definition resetButton_disabled (s : State) : bool := isScanning s || isConnecting s.
Definition disconnectButton_shown (s : State) : bool :=
  match connectedDevice s with
  | Some _ => true
  | None => false
  end.

(** The device-list invariant of the scan: identities are distinct and every
    name is non-empty. *)
Definition well_listed (ds : list Device) : Prop :=
  NoDup (map id ds) /\ Forall (fun d => truthy (name d) = true) ds.

Definition is_console (e : Effect) : bool :=
  match e with
  | console_log _ | console_error _ _ => true
  | _ => false
  end.

(** An advertisement event that carries an error. *)
Definition has_error (ev : ScanEvent) : bool :=
  match fst ev with
  | Some _ => true
  | None => false
  end.

(** Every synchronous step of a task takes a world to one related to it by
    [R]. *)
Fixpoint steps_in (R : World -> World -> Prop) {A} (t : Task A) : Prop :=
  match t with
  | Ret _ | Raise _ => True
  | Act f k => (forall w, R w (f w)) /\ steps_in R k
  | Read k => forall w, steps_in R (k w)
  | Ask q k => forall r, steps_in R (k r)
  end.

(** The library holds in [w'] every listener it held in [w]. *)
Definition listeners_kept (w w' : World) : Prop :=
  exists l, monitors w' = (l ++ monitors w)%list.

(** The [hrSubscription] variables of all renders but [r] are in [w'] what
    they were in [w]. *)
Definition others_untouched (r : Render) (w w' : World) : Prop :=
  forall i, i <> rid r ->
    nth i (hrSubscription w') None = nth i (hrSubscription w) None.

(** More concrete sessions. *)
Module Cases.

(** A transport that reports the adapter as powered off. *)
Definition radio_off : Oracle := fun q =>
  match q as q' return result (Response q') with
  | manager_state => Ok PoweredOff
  | q' => Scenario.transport q'
  end.

Definition is_state (q : Request) : bool :=
  match q with
  | manager_state => true
  | _ => false
  end.

Definition is_remove_request (q : Request) : bool :=
  match q with
  | remove _ => true
  | _ => false
  end.

(** An advertisement of [polar]'s identity under another name. *)
Definition renamed : Device := mkDevice "AA:01" (Some "H10 (2)").

(** A device that advertises no name, as the transport may return it from
    [manager.connectToDevice]. *)
Definition unnamed_link : Oracle := fun q =>
  match q as q' return result (Response q') with
  | manager_connectToDevice _ => Ok Scenario.beacon
  | q' => Scenario.transport q'
  end.

(** The render in which "Disconnect" is pressed holds the subscription in its
    own variable. *)
Definition w_held : World :=
  mkWorld (hooks Scenario.w_connected)
          (store (rid Scenario.r_connected) (Some 7)
                 (hrSubscription Scenario.w_connected))
          (monitors Scenario.w_connected) (trace Scenario.w_connected).

(** A scan, then a tap on [polar] in the render that shows the scan's
    result: the attempt has completed and the component has been rendered
    again. *)
Definition w_session : World :=
  snd (render (snd (run (connectToDevice Scenario.r_scanning Scenario.polar)
                        Scenario.transport Scenario.w_scanning))).

(** A transport whose reads deliver empty payloads. *)
Definition empty_payloads : Oracle := fun q =>
  match q as q' return result (Response q') with
  | readCharacteristicForService _ _ c =>
      Ok (mkCharacteristic c true false false (Some ""))
  | q' => Scenario.transport q'
  end.

End Cases.

(** ** Two presses on "Scan Devices" in one render *)

Definition is_setTimeout (e : Effect) : bool :=
  match e with
  | setTimeout _ => true
  | _ => false
  end.

Definition is_startDeviceScan (e : Effect) : bool :=
  match e with
  | manager_startDeviceScan => true
  | _ => false
  end.

Module DoubleTap.

(** The first press, in the mount render: the call waits at
    [await manager.state()], inside [ensureBluetoothOn].  No hook cell has
    changed, so the component is not rendered again. *)
Definition first : Task unit :=
  fst (advance (scanDevices Scenario.r0) Scenario.transport Scenario.w0).
Definition w_first_pending : World :=
  snd (advance (scanDevices Scenario.r0) Scenario.transport Scenario.w0).

(** The second press reaches the handler of the same render while the first
    call is in flight. *)
Definition second : Task unit :=
  fst (advance (scanDevices Scenario.r0) Scenario.transport w_first_pending).
Definition w_both_pending : World :=
  snd (advance (scanDevices Scenario.r0) Scenario.transport w_first_pending).

(** The state query of the first call settles and the call runs to its end:
    the scan is in progress.  One advertisement arrives. *)
Definition w_scan_started : World :=
  snd (run (resume first Scenario.transport) Scenario.transport w_both_pending).
Definition w_found : World :=
  deliver_scan Scenario.transport [(None, Some Scenario.polar)] w_scan_started.

(** The state query of the second call settles and that call runs to its
    end. *)
Definition w_second_done : World :=
  snd (run (resume second Scenario.transport) Scenario.transport w_found).

End DoubleTap.

(** * Properties *)

(** ** Laws of [run] *)

Ltac world := simpl; repeat rewrite <- List.app_assoc; simpl.

Lemma run_bind {A B} (t : Task A) (f : A -> Task B) (o : Oracle) w :
  run (bind t f) o w =
  match run t o w with
  | (Ok a, w') => run (f a) o w'
  | (Throw e, w') => (Throw e, w')
  end.
Proof.
  revert w. induction t as [a|e|g k IH|k IH|q k IH]; intros w; simpl; auto.
Qed.

Lemma run_try_catch {A} (t : Task A) h (o : Oracle) w :
  run (try_catch t h) o w =
  match run t o w with
  | (Ok a, w') => (Ok a, w')
  | (Throw e, w') => run (h e) o w'
  end.
Proof.
  revert w. induction t as [a|e|g k IH|k IH|q k IH]; intros w; simpl; auto.
Qed.

(** The [finally] block runs whatever the outcome of the [try] block, and the
    outcome of the [try] block is that of the statement unless the [finally]
    block throws. *)
Lemma run_try_finally {A} (t : Task A) f (o : Oracle) w :
  run (try_finally t f) o w =
  let (r, w') := run t o w in
  match run f o w' with
  | (Ok _, w'') => (r, w'')
  | (Throw e, w'') => (Throw e, w'')
  end.
Proof.
  revert w. induction t as [a|e|g k IH|k IH|q k IH]; intros w; simpl; auto.
  - rewrite run_bind. destruct (run f o w) as [[[]|e] w']; reflexivity.
  - rewrite run_bind. destruct (run f o w) as [[[]|e'] w']; reflexivity.
Qed.

(** Suspending at an [await] and going on is the same as running through. *)
Lemma run_advance {A} (t : Task A) (o : Oracle) w :
  run (fst (advance t o w)) o (snd (advance t o w)) = run t o w.
Proof.
  revert w. induction t as [a|e|g k IH|k IH|q k IH]; intros w; simpl; auto.
  destruct (awaited q); simpl; auto.
Qed.

Lemma run_call q (o : Oracle) w : run (call q) o w = (o q, emit (Call q) w).
Proof. simpl. destruct (o q); reflexivity. Qed.

Lemma run_effect e (o : Oracle) w : run (effect e) o w = (Ok tt, emit e w).
Proof. reflexivity. Qed.

Lemma byte_to_Z_range b : (0 <= byte_to_Z b < 256)%Z.
Proof.
  unfold byte_to_Z. pose proof (Byte.to_N_bounded b). lia.
Qed.

Lemma nth_fresh {A} (l : list A) (d : A) : nth (length l) (l ++ [d]) d = d.
Proof. induction l; simpl; auto. Qed.

Lemma filter_filter {A} (f g : A -> bool) l :
  filter f (filter g l) = filter (fun x => g x && f x) l.
Proof.
  induction l as [|x l IH]; simpl; [reflexivity|].
  destruct (g x); simpl; [destruct (f x)|]; rewrite IH; reflexivity.
Qed.

Lemma enumeration_no_cancel l :
  forallb is_enumeration l = true -> existsb is_cancelConnection l = false.
Proof.
  induction l as [|x l IH]; simpl; [reflexivity|].
  rewrite andb_true_iff. intros [Hx Hl]. rewrite (IH Hl).
  destruct x as [[]| | | | | |]; simpl in *; congruence.
Qed.

Lemma enumeration_no_alert title l :
  forallb is_enumeration l = true -> existsb (is_alert title) l = false.
Proof.
  induction l as [|x l IH]; simpl; [reflexivity|].
  rewrite andb_true_iff. intros [Hx Hl]. rewrite (IH Hl).
  destruct x as [[]| | | | | |]; simpl in *; congruence.
Qed.

(** ** Scan Coordinator *)

(** The guard of line 80, in a render that has seen the flag: a call to
    [scanDevices] made by a render in which [isScanning] is true completes at
    once, without reaching any [await], and leaves the whole world as it was:
    the device list is not cleared and no timer is set. *)
Theorem scanDevices_while_scanning r (o : Oracle) w :
  isScanning (snap r) = true ->
  advance (scanDevices r) o w = (Ret tt, w) /\
  run (scanDevices r) o w = (Ok tt, w).
Proof.
  intros H. unfold scanDevices. rewrite H. split; reflexivity.
Qed.

Lemma scanDevices_while_scanning_witness :
  isScanning (snap Scenario.r_scanning) = true /\
  map id (devices (hooks Scenario.w_scanning)) = ["AA:01"; "BB:02"] /\
  advance (scanDevices Scenario.r_scanning) Scenario.transport Scenario.w_scanning
    = (Ret tt, Scenario.w_scanning) /\
  run (scanDevices Scenario.r_scanning) Scenario.transport Scenario.w_scanning
    = (Ok tt, Scenario.w_scanning).
Proof.
  split; [reflexivity|]. split; [reflexivity|].
  apply (scanDevices_while_scanning
           Scenario.r_scanning Scenario.transport Scenario.w_scanning).
  reflexivity.
Defined.

(** C8, at the failing input.  "Scan Devices" is pressed twice in the mount
    render.  The first call is waiting for the adapter state when the second
    is made: no hook cell has changed yet, so the second call reads
    [isScanning] as false, passes the guard of line 80 and waits as well.  The
    first call then starts the scan, and a device is found while the scan is
    in progress.  When the second call goes on, it empties the device list,
    starts the scan again and sets a second timer. *)
Theorem second_scan_restarts :
  suspended DoubleTap.first = true /\
  hooks DoubleTap.w_first_pending = hooks Scenario.w0 /\
  isScanning (snap Scenario.r0) = false /\
  suspended DoubleTap.second = true /\
  isScanning (hooks DoubleTap.w_found) = true /\
  devices (hooks DoubleTap.w_found) = [Scenario.polar] /\
  length (filter is_setTimeout (trace DoubleTap.w_found)) = 1 /\
  devices (hooks DoubleTap.w_second_done) = [] /\
  length (filter is_startDeviceScan (trace DoubleTap.w_second_done)) = 2 /\
  length (filter is_setTimeout (trace DoubleTap.w_second_done)) = 2.
Proof.
  repeat split.
Qed.

(** The run of [scanDevices] that passes both guards. *)
Lemma run_scanDevices r (o : Oracle) w :
  isScanning (snap r) = false ->
  o manager_state = Ok PoweredOn ->
  run (scanDevices r) o w =
  (Ok tt,
   mkWorld (mkState [] true None (isConnecting (hooks w)) None None)
           (hrSubscription w) (monitors w)
           (trace w ++
              [Call manager_state; console_log "Bluetooth initial state:";
               console_log "Starting BLE scan..."; manager_startDeviceScan;
               setTimeout 5000])).
Proof.
  intros H Hs. unfold scanDevices. rewrite H.
  unfold ensureBluetoothOn, call. simpl. rewrite Hs. world. reflexivity.
Qed.

(** C10. A call to [scanDevices] that finds the adapter powered on while no
    scan is in progress empties the device list and clears the connected
    device, the device information and the heart rate; what it sends to the
    transport is the state query and the scan start, with the 5000 ms timer:
    no disconnect is requested for a device that was connected, and its
    notification listener stays registered. *)
Theorem scanDevices_resets_session r (o : Oracle) w :
  isScanning (snap r) = false ->
  o manager_state = Ok PoweredOn ->
  exists w' added,
    run (scanDevices r) o w = (Ok tt, w') /\
    hooks w' = mkState [] true None (isConnecting (hooks w)) None None /\
    monitors w' = monitors w /\
    trace w' = (trace w ++ added)%list /\
    added = [Call manager_state; console_log "Bluetooth initial state:";
             console_log "Starting BLE scan..."; manager_startDeviceScan;
             setTimeout 5000] /\
    existsb is_cancelConnection added = false.
Proof.
  intros H Hs. rewrite (run_scanDevices r o w H Hs).
  do 2 eexists. repeat split.
Qed.

Lemma scanDevices_resets_session_witness :
  connectedDevice (hooks Scenario.w_connected) = Some Scenario.polar /\
  exists w' added,
    run (scanDevices Scenario.r_connected) Scenario.transport Scenario.w_connected
      = (Ok tt, w') /\
    hooks w' = mkState [] true None false None None /\
    monitors w' = monitors Scenario.w_connected /\
    trace w' = (trace Scenario.w_connected ++ added)%list /\
    added = [Call manager_state; console_log "Bluetooth initial state:";
             console_log "Starting BLE scan..."; manager_startDeviceScan;
             setTimeout 5000] /\
    existsb is_cancelConnection added = false.
Proof.
  split; [reflexivity|].
  exact (scanDevices_resets_session
           Scenario.r_connected Scenario.transport Scenario.w_connected
           eq_refl eq_refl).
Defined.

(** The device list after one advertisement. *)
Lemma step_scan_devices (o : Oracle) w ev :
  devices (hooks (step_scan o w ev)) =
  match ev with
  | (None, Some d) =>
      if truthy (name d) then addDevice d (devices (hooks w))
      else devices (hooks w)
  | _ => devices (hooks w)
  end.
Proof.
  destruct ev as [[e|] [d|]]; unfold step_scan; simpl; try reflexivity.
  destruct (truthy (name d)); simpl; [|reflexivity].
  destruct (existsb _ _); reflexivity.
Qed.

Lemma deliver_scan_devices (o : Oracle) evs : forall w,
  devices (hooks (deliver_scan o evs w)) =
  fold_left (fun acc d => addDevice d acc) (accepted evs) (devices (hooks w)).
Proof.
  unfold deliver_scan.
  induction evs as [|ev evs IH]; intros w; simpl; [reflexivity|].
  rewrite IH, step_scan_devices, fold_left_app.
  destruct ev as [[e|] [d|]]; simpl; try reflexivity.
  destruct (truthy (name d)); reflexivity.
Qed.

(** The updater accumulated over a list of devices: those already listed,
    then the first occurrence of every identity that was not. *)
Lemma fold_addDevice ds : forall prev,
  fold_left (fun acc d => addDevice d acc) ds prev =
  (prev ++ filter (fun x => negb (existsb (fun y => id y =? id x) prev))
                  (first_seen ds))%list.
Proof.
  induction ds as [|d ds IH]; intros prev; simpl.
  - rewrite app_nil_r. reflexivity.
  - rewrite IH. unfold addDevice.
    destruct (existsb (fun x => id x =? id d) prev) eqn:E; simpl.
    + f_equal. rewrite filter_filter. apply filter_ext_in. intros x _.
      destruct (id x =? id d) eqn:Ex; simpl; [|reflexivity].
      apply String.eqb_eq in Ex. rewrite Ex, E. reflexivity.
    + rewrite <- List.app_assoc. simpl. f_equal. f_equal.
      rewrite filter_filter. apply filter_ext. intros x.
      rewrite existsb_app. simpl. rewrite orb_false_r, negb_orb.
      rewrite (String.eqb_sym (id d) (id x)). apply andb_comm.
Qed.

Lemma first_seen_NoDup ds : NoDup (map id (first_seen ds)).
Proof.
  induction ds as [|d ds IH]; simpl; [constructor|].
  constructor.
  - rewrite in_map_iff. intros [x [Hx Hin]].
    apply filter_In in Hin. destruct Hin as [_ Hne].
    rewrite Hx, String.eqb_refl in Hne. discriminate.
  - clear -IH. induction (first_seen ds) as [|x l IHl]; simpl; [constructor|].
    inversion IH; subst.
    destruct (negb (id x =? id d)); simpl; auto.
    constructor; auto.
    rewrite in_map_iff in *. intros [y [Hy Hin]]. apply H1.
    exists y. split; auto. apply filter_In in Hin. tauto.
Qed.

Lemma first_seen_incl ds x : In x (first_seen ds) -> In x ds.
Proof.
  induction ds as [|d ds IH]; simpl; [tauto|].
  intros [->|Hin]; [auto|]. apply filter_In in Hin. right. tauto.
Qed.

Lemma accepted_named evs d :
  In d (accepted evs) -> exists n, name d = Some n /\ n <> "".
Proof.
  unfold accepted. rewrite in_flat_map.
  intros [[[e|] [x|]] [_ Hin]]; simpl in Hin; try tauto.
  unfold truthy in Hin. destruct (name x) as [n|] eqn:En; simpl in Hin; [|tauto].
  destruct (String.eqb_spec n ""); simpl in Hin; [tauto|].
  destruct Hin as [<-|[]]. eauto.
Qed.

Lemma deliver_scan_from_empty (o : Oracle) evs w :
  devices (hooks w) = [] ->
  devices (hooks (deliver_scan o evs w)) = first_seen (accepted evs).
Proof.
  intros Hw. rewrite deliver_scan_devices, Hw, fold_addDevice. simpl.
  induction (first_seen (accepted evs)) as [|x l IH]; simpl; congruence.
Qed.

(** C6. After a scan has started, whatever advertisements (and scan errors)
    the listener receives, the device list is the list of the first named
    advertisement of every identity, in arrival order: no identity occurs
    twice, and every member has a non-empty name. *)
Theorem discovery_set_first_seen r (o : Oracle) w evs :
  isScanning (snap r) = false ->
  o manager_state = Ok PoweredOn ->
  let ds := devices (hooks (deliver_scan o evs (snd (run (scanDevices r) o w)))) in
  ds = first_seen (accepted evs) /\
  NoDup (map id ds) /\
  Forall (fun d => exists n, name d = Some n /\ n <> "") ds.
Proof.
  intros H Hs ds.
  assert (Hds : ds = first_seen (accepted evs)).
  { subst ds. apply deliver_scan_from_empty.
    rewrite (run_scanDevices r o w H Hs). reflexivity. }
  rewrite Hds. split; [reflexivity|]. split; [apply first_seen_NoDup|].
  rewrite Forall_forall. intros d Hd.
  apply (accepted_named evs), first_seen_incl, Hd.
Qed.

Lemma discovery_set_first_seen_witness :
  let ds := devices (hooks (deliver_scan Scenario.transport Scenario.adverts
                   (snd (run (scanDevices Scenario.r0) Scenario.transport
                             Scenario.w0)))) in
  ds = [Scenario.polar; Scenario.strap] /\
  ds = first_seen (accepted Scenario.adverts) /\
  NoDup (map id ds) /\
  Forall (fun d => exists n, name d = Some n /\ n <> "") ds.
Proof.
  split; [reflexivity|].
  exact (discovery_set_first_seen
           Scenario.r0 Scenario.transport Scenario.w0 Scenario.adverts
           eq_refl eq_refl).
Defined.

(** ** Characteristic Reader *)

Lemma run_safeRead `{BufferCodec} device service char (o : Oracle) w :
  run (safeRead device service char) o w =
  (Ok (match subread_text o device service char with
       | Ok s => s
       | Throw _ => "N/A"
       end),
   emit (Call (readCharacteristicForService device service char)) w).
Proof.
  unfold safeRead, subread_text. rewrite run_try_catch. simpl.
  destruct (o (readCharacteristicForService device service char)) as [res|e];
    simpl; [|reflexivity].
  destruct (Buffer_from (value res)); reflexivity.
Qed.

Lemma run_readBatteryLevel `{BufferCodec} device (o : Oracle) w :
  run (readBatteryLevel device) o w =
  (Ok (match subread_uint8 o device BATTERY_SERVICE BATTERY_LEVEL with
       | Ok n => VNum n
       | Throw _ => VStr "N/A"
       end),
   emit (Call (readCharacteristicForService device BATTERY_SERVICE BATTERY_LEVEL)) w).
Proof.
  unfold readBatteryLevel, subread_uint8. rewrite run_try_catch. simpl.
  destruct (o (readCharacteristicForService device BATTERY_SERVICE BATTERY_LEVEL))
    as [res|e]; simpl; [|reflexivity].
  destruct (Buffer_from (value res)) as [buf|e]; simpl; [|reflexivity].
  destruct (readUInt8 buf 0); reflexivity.
Qed.

(** The whole of [readDeviceInfoAndBattery]: both reads are requested, in this
    order, and [deviceInfo] is set from their outcomes. *)
Lemma run_readDeviceInfoAndBattery `{BufferCodec} device (o : Oracle) w :
  run (readDeviceInfoAndBattery device) o w =
  (Ok tt,
   mkWorld
     (mkState (devices (hooks w)) (isScanning (hooks w))
        (connectedDevice (hooks w)) (isConnecting (hooks w))
        (Some (mkDeviceInfo
                 (match subread_text o device DEVICE_INFORMATION MANUFACTURER_NAME with
                  | Ok s => s
                  | Throw _ => "N/A"
                  end)
                 (match subread_uint8 o device BATTERY_SERVICE BATTERY_LEVEL with
                  | Ok n => VNum n
                  | Throw _ => VStr "N/A"
                  end)))
        (heartRate (hooks w)))
     (hrSubscription w) (monitors w)
     (trace w ++
        [Call (readCharacteristicForService device DEVICE_INFORMATION MANUFACTURER_NAME);
         Call (readCharacteristicForService device BATTERY_SERVICE BATTERY_LEVEL);
         console_log "Manufacturer:"; console_log "Battery Level:"])).
Proof.
  unfold readDeviceInfoAndBattery.
  rewrite run_try_catch, run_bind, run_safeRead, run_bind, run_readBatteryLevel.
  world. reflexivity.
Qed.

(** C5. [readDeviceInfoAndBattery] always completes normally; it requests the
    manufacturer read and the battery read whatever the other one does; and
    [deviceInfo] carries, for each field, the value read, or "N/A" when that
    sub-read failed: in particular when exactly one of the two failed. *)
Theorem readDeviceInfo_isolated `{BufferCodec} device (o : Oracle) w :
  let m := subread_text o device DEVICE_INFORMATION MANUFACTURER_NAME in
  let b := subread_uint8 o device BATTERY_SERVICE BATTERY_LEVEL in
  exists w',
    run (readDeviceInfoAndBattery device) o w = (Ok tt, w') /\
    In (Call (readCharacteristicForService device DEVICE_INFORMATION MANUFACTURER_NAME))
       (trace w') /\
    In (Call (readCharacteristicForService device BATTERY_SERVICE BATTERY_LEVEL))
       (trace w') /\
    deviceInfo (hooks w') =
      Some (mkDeviceInfo (match m with Ok s => s | Throw _ => "N/A" end)
                         (match b with Ok n => VNum n | Throw _ => VStr "N/A" end)) /\
    (forall e n, m = Throw e -> b = Ok n ->
       deviceInfo (hooks w') = Some (mkDeviceInfo "N/A" (VNum n))) /\
    (forall s e, m = Ok s -> b = Throw e ->
       deviceInfo (hooks w') = Some (mkDeviceInfo s (VStr "N/A"))).
Proof.
  intros m b. rewrite run_readDeviceInfoAndBattery. eexists.
  split; [reflexivity|]. simpl. fold m b.
  split; [rewrite in_app_iff; simpl; tauto|].
  split; [rewrite in_app_iff; simpl; tauto|].
  split; [reflexivity|].
  split; intros ? ? Hm Hb; rewrite Hm, Hb; reflexivity.
Qed.

Lemma readDeviceInfo_isolated_witness :
  let o := Scenario.rejecting (Scenario.is_read MANUFACTURER_NAME)
                              Scenario.timeout Scenario.transport in
  subread_text o Scenario.polar DEVICE_INFORMATION MANUFACTURER_NAME
    = Throw Scenario.timeout /\
  subread_uint8 o Scenario.polar BATTERY_SERVICE BATTERY_LEVEL = Ok 67%Z /\
  deviceInfo (hooks (snd (run (readDeviceInfoAndBattery Scenario.polar) o Scenario.w0)))
    = Some (mkDeviceInfo "N/A" (VNum 67)).
Proof.
  intros o. split; [reflexivity|]. split; [reflexivity|].
  destruct (readDeviceInfo_isolated Scenario.polar o Scenario.w0)
    as (w' & Hrun & _ & _ & _ & Hone & _).
  rewrite Hrun. exact (Hone Scenario.timeout 67%Z eq_refl eq_refl).
Defined.

(** C4, counterexample.  A battery payload whose byte is 200 is outside 0-100,
    and the battery field is the number 200, not "N/A". *)
Lemma battery_out_of_range_kept :
  let o := Scenario.with_battery "yA==" Scenario.transport in
  battery_payload o Scenario.polar = Some [xc8] /\
  byte_to_Z xc8 = 200%Z /\
  deviceInfo (hooks (snd (run (readDeviceInfoAndBattery Scenario.polar) o Scenario.w0)))
    = Some (mkDeviceInfo "Polar" (VNum 200)).
Proof.
  repeat split.
Qed.

(** C4, as the code has it.  The battery field is the first byte of the raw
    payload as an unsigned 8-bit number, whatever its value between 0 and 255;
    it is "N/A" exactly when the read fails, delivers no value, or delivers an
    empty payload. *)
Theorem battery_level_decoding `{BufferCodec} device (o : Oracle) w :
  exists m b,
    deviceInfo (hooks (snd (run (readDeviceInfoAndBattery device) o w)))
      = Some (mkDeviceInfo m b) /\
    b = match battery_payload o device with
        | Some (b0 :: _) => VNum (byte_to_Z b0)
        | _ => VStr "N/A"
        end /\
    (forall n, b = VNum n -> (0 <= n < 256)%Z).
Proof.
  rewrite run_readDeviceInfoAndBattery. do 2 eexists.
  split; [reflexivity|].
  unfold subread_uint8, battery_payload, Buffer_from, readUInt8.
  destruct (o (readCharacteristicForService device BATTERY_SERVICE BATTERY_LEVEL))
    as [res|e]; [|split; [reflexivity|discriminate]].
  destruct (value res) as [v|]; simpl; [|split; [reflexivity|discriminate]].
  destruct (from_base64 v) as [|b0 rest]; simpl; [split; [reflexivity|discriminate]|].
  split; [reflexivity|]. intros n Hn. injection Hn as <-. apply byte_to_Z_range.
Qed.

Lemma battery_level_decoding_witness :
  exists m b,
    deviceInfo (hooks (snd (run (readDeviceInfoAndBattery Scenario.polar)
                                Scenario.transport Scenario.w0)))
      = Some (mkDeviceInfo m b) /\
    b = match battery_payload Scenario.transport Scenario.polar with
        | Some (b0 :: _) => VNum (byte_to_Z b0)
        | _ => VStr "N/A"
        end /\
    (forall n, b = VNum n -> (0 <= n < 256)%Z).
Proof.
  exact (battery_level_decoding Scenario.polar Scenario.transport Scenario.w0).
Defined.

(** ** Notification Stream *)

(** C9. A notification whose payload has at least two bytes sets [heartRate]
    to the second byte, read as an unsigned 8-bit number, whatever sample was
    there before; nothing else in the component state changes. *)
Theorem heartRate_notification `{BufferCodec} (o : Oracle) w c v b0 b1 rest :
  value c = Some v ->
  from_base64 v = b0 :: b1 :: rest ->
  exists w',
    run (heartRateListener None (Some c)) o w = (Ok tt, w') /\
    hooks w' = mkState (devices (hooks w)) (isScanning (hooks w))
                       (connectedDevice (hooks w)) (isConnecting (hooks w))
                       (deviceInfo (hooks w)) (Some (byte_to_Z b1)) /\
    (0 <= byte_to_Z b1 < 256)%Z.
Proof.
  intros Hv Hb. unfold heartRateListener. rewrite Hv.
  assert (Ht : truthy (Some v) = true).
  { simpl. destruct (String.eqb_spec v "") as [->|]; [|reflexivity].
    rewrite from_base64_empty in Hb. discriminate. }
  rewrite Ht. simpl. rewrite Hb. simpl.
  eexists. split; [reflexivity|]. split; [reflexivity|]. apply byte_to_Z_range.
Qed.

Lemma heartRate_notification_witness :
  heartRate (hooks Scenario.w_connected) = Some 72%Z /\
  exists w',
    run (heartRateListener None (Some (Scenario.measurement (Some "AEs="))))
        Scenario.transport Scenario.w_connected = (Ok tt, w') /\
    heartRate (hooks w') = Some 75%Z.
Proof.
  split; [reflexivity|].
  destruct (@heartRate_notification ReferenceCodec
              Scenario.transport Scenario.w_connected
              (Scenario.measurement (Some "AEs=")) "AEs=" x00 x4b []
              eq_refl eq_refl) as (w' & Hrun & Hh & _).
  exists w'. split; [exact Hrun|]. rewrite Hh. reflexivity.
Defined.

(** The example of the spec: 72, then 75. *)
Example heartRate_72_then_75 :
  let w1 := snd (run (heartRateListener None (Some (Scenario.measurement (Some "AEg="))))
                     Scenario.transport Scenario.w0) in
  let w2 := snd (run (heartRateListener None (Some (Scenario.measurement (Some "AEs="))))
                     Scenario.transport w1) in
  heartRate (hooks w1) = Some 72%Z /\ heartRate (hooks w2) = Some 75%Z.
Proof. split; reflexivity. Qed.

(** ** Session Controller *)

(** *** Tasks that do not depend on the two flags *)

Lemma same_session_refl w : same_session w w.
Proof. unfold same_session. tauto. Qed.

Lemma flag_blind_bind {A B} (t : Task A) (f : A -> Task B) :
  flag_blind t -> (forall a, flag_blind (f a)) -> flag_blind (bind t f).
Proof.
  intros Ht Hf. induction t as [a|e|g k IH|k IH|q k IH]; simpl in *; auto.
  - destruct Ht. auto.
  - intros w1 w2 Hw. destruct (Ht w1 w2 Hw) as [Hk Hb]. split.
    + rewrite Hk. reflexivity.
    + apply IH, Hb.
Qed.

Lemma flag_blind_try_catch {A} (t : Task A) h :
  flag_blind t -> (forall e, flag_blind (h e)) -> flag_blind (try_catch t h).
Proof.
  intros Ht Hh. induction t as [a|e|g k IH|k IH|q k IH]; simpl in *; auto.
  - destruct Ht. auto.
  - intros w1 w2 Hw. destruct (Ht w1 w2 Hw) as [Hk Hb]. split.
    + rewrite Hk. reflexivity.
    + apply IH, Hb.
Qed.

Lemma flag_blind_for_of {A} (l : list A) body :
  (forall x, flag_blind (body x)) -> flag_blind (for_of l body).
Proof.
  intros Hb. induction l as [|x l IH]; simpl; [exact I|].
  apply flag_blind_bind; auto.
Qed.

Ltac blind_step :=
  simpl; split; [|exact I]; unfold same_session, with_hooks, emit; simpl;
  intros w1 w2 (Hd & Hc & Hi & Hh & Hs & Hm & Ht); repeat split; congruence.

Lemma flag_blind_effect e : flag_blind (effect e).
Proof. blind_step. Qed.

Lemma flag_blind_lift {A} (r : result A) : flag_blind (lift r).
Proof. destruct r; exact I. Qed.

Lemma flag_blind_call q : flag_blind (call q).
Proof.
  simpl. split; [|intros r; apply flag_blind_lift].
  unfold same_session, emit. simpl.
  intros w1 w2 (Hd & Hc & Hi & Hh & Hs & Hm & Ht). repeat split; congruence.
Qed.

Lemma flag_blind_setConnectedDevice v : flag_blind (setConnectedDevice v).
Proof. blind_step. Qed.

Lemma flag_blind_setDeviceInfo v : flag_blind (setDeviceInfo v).
Proof. blind_step. Qed.

Lemma flag_blind_set_hrSubscription r v : flag_blind (set_hrSubscription r v).
Proof. blind_step. Qed.

Lemma flag_blind_monitor d s c : flag_blind (monitor d s c).
Proof.
  unfold monitor. apply flag_blind_bind; [apply flag_blind_call|].
  intros a. blind_step.
Qed.

Create HintDb blind.

Ltac blind :=
  lazymatch goal with
  | |- flag_blind (Ret _) => exact I
  | |- flag_blind (Raise _) => exact I
  | |- flag_blind (try_catch _ _) =>
      apply flag_blind_try_catch; [blind | intro; blind]
  | |- flag_blind (bind _ _) =>
      apply flag_blind_bind; [blind | intro; blind]
  | |- flag_blind (for_of _ _) =>
      apply flag_blind_for_of; intro; blind
  | |- flag_blind (call _) => apply flag_blind_call
  | |- flag_blind (lift _) => apply flag_blind_lift
  | |- flag_blind (effect _) => apply flag_blind_effect
  | |- flag_blind (monitor _ _ _) => apply flag_blind_monitor
  | |- flag_blind (setConnectedDevice _) => apply flag_blind_setConnectedDevice
  | |- flag_blind (setDeviceInfo _) => apply flag_blind_setDeviceInfo
  | |- flag_blind (set_hrSubscription _ _) => apply flag_blind_set_hrSubscription
  | |- _ => solve [auto with blind]
  end.

(** A flag-blind task run from two worlds that agree up to the flags gives
    the same result and worlds that agree up to the flags. *)
Lemma run_flag_blind {A} (t : Task A) (o : Oracle) :
  flag_blind t -> forall w1 w2, same_session w1 w2 ->
  fst (run t o w1) = fst (run t o w2) /\
  same_session (snd (run t o w1)) (snd (run t o w2)).
Proof.
  induction t as [a|e|g k IH|k IH|q k IH]; simpl; intros Ht w1 w2 Hw.
  - auto.
  - auto.
  - destruct Ht as [Hg Hk]. apply IH; auto.
  - destruct (Ht w1 w2 Hw) as [Hk Hb]. rewrite <- Hk. apply IH; auto.
  - apply IH; auto.
Qed.

Section Connect.
Context `{Codec : BufferCodec}.

Lemma flag_blind_readDeviceInfoAndBattery d :
  flag_blind (readDeviceInfoAndBattery d).
Proof.
  unfold readDeviceInfoAndBattery, safeRead, readBatteryLevel. blind.
Qed.

Lemma flag_blind_subscribeToHeartRate r d :
  flag_blind (subscribeToHeartRate r d).
Proof.
  unfold subscribeToHeartRate. blind.
Qed.

Lemma flag_blind_logService s : flag_blind (logService s).
Proof.
  unfold logService, logCharacteristic. blind.
Qed.

Hint Resolve flag_blind_readDeviceInfoAndBattery
  flag_blind_subscribeToHeartRate flag_blind_logService : blind.

Lemma flag_blind_afterConnect r a : flag_blind (afterConnect r a).
Proof.
  unfold afterConnect. blind.
Qed.

(** *** The shape of a connect attempt *)

(** A connect attempt started while [isConnecting] was false suspends at
    [await manager.connectToDevice]; once that settles, what remains is
    [afterConnect] under the [finally] block. *)
Lemma advance_connectToDevice r device (o : Oracle) w :
  isConnecting (snap r) = false ->
  resume (fst (advance (connectToDevice r device) o w)) o =
  try_finally (afterConnect r (o (manager_connectToDevice (id device))))
              (setIsConnecting false ;; setIsScanning false).
Proof.
  intros H. unfold connectToDevice. rewrite H. reflexivity.
Qed.

Lemma run_connectToDevice r device (o : Oracle) w :
  isConnecting (snap r) = false ->
  run (connectToDevice r device) o w =
  run (try_finally (afterConnect r (o (manager_connectToDevice (id device))))
                   (setIsConnecting false ;; setIsScanning false))
      o
      (mkWorld (mkState (devices (hooks w)) (isScanning (hooks w))
                        (connectedDevice (hooks w)) true
                        (deviceInfo (hooks w)) (heartRate (hooks w)))
               (hrSubscription w) (monitors w)
               (trace w ++ [console_log "Connecting to device:";
                            manager_stopDeviceScan;
                            Call (manager_connectToDevice (id device))])).
Proof.
  intros H. unfold connectToDevice. rewrite H. world. reflexivity.
Qed.

(** A connect call made by a render in which [isConnecting] is true: the
    guard returns, and the [finally] block clears both flags. *)
Lemma advance_connectToDevice_guarded r device (o : Oracle) w :
  isConnecting (snap r) = true ->
  advance (connectToDevice r device) o w =
  (Ret tt,
   with_hooks (fun s => mkState (devices s) false (connectedDevice s) false
                                (deviceInfo s) (heartRate s)) w).
Proof.
  intros H. unfold connectToDevice. rewrite H. reflexivity.
Qed.

(** The debugging loop touches nothing but the trace. *)
Lemma run_logCharacteristics cs (o : Oracle) : forall w,
  exists added,
    run (for_of cs logCharacteristic) o w =
      (Ok tt, mkWorld (hooks w) (hrSubscription w) (monitors w) (trace w ++ added)) /\
    forallb is_enumeration added = true.
Proof.
  induction cs as [|c cs IH]; intros w.
  - exists []. simpl. rewrite app_nil_r. destruct w; split; reflexivity.
  - change (for_of (c :: cs) logCharacteristic)
      with (logCharacteristic c ;; for_of cs logCharacteristic).
    rewrite run_bind. world.
    match goal with |- context [run _ o ?w1] =>
      destruct (IH w1) as [added [Hr Hn]] end.
    rewrite Hr. world. eexists. split; [reflexivity|]. simpl. exact Hn.
Qed.

Lemma run_logServices ss (o : Oracle) : forall w,
  exists res added,
    run (for_of ss logService) o w =
      (res, mkWorld (hooks w) (hrSubscription w) (monitors w) (trace w ++ added)) /\
    forallb is_enumeration added = true /\
    ((forall s, In s ss -> exists cs, o (characteristics s) = Ok cs) ->
     res = Ok tt).
Proof.
  induction ss as [|s ss IH]; intros w.
  - exists (Ok tt), []. simpl. rewrite app_nil_r.
    destruct w; repeat split; reflexivity.
  - change (for_of (s :: ss) logService)
      with (logService s ;; for_of ss logService).
    rewrite run_bind. unfold logService at 1. rewrite run_bind. world.
    destruct (o (characteristics s)) as [cs|e] eqn:E; world.
    + match goal with |- context [run (for_of cs _) o ?w1] =>
        destruct (run_logCharacteristics cs o w1) as [a1 [Hr1 Hn1]] end.
      rewrite Hr1. world.
      match goal with |- context [run (for_of ss _) o ?w1] =>
        destruct (IH w1) as [res [a2 [Hr2 [Hn2 Hok]]]] end.
      rewrite Hr2. world.
      exists res. eexists. split; [reflexivity|]. split.
      * simpl. rewrite forallb_app, Hn1, Hn2. reflexivity.
      * intros Hall. apply Hok. intros s' Hs'. apply Hall. right. exact Hs'.
    + exists (Throw e). eexists. split; [reflexivity|]. split; [reflexivity|].
      intros Hall. destruct (Hall s (or_introl eq_refl)) as [cs Hcs]. congruence.
Qed.

Lemma run_subscribeToHeartRate r d (o : Oracle) w :
  exists w' added,
    run (subscribeToHeartRate r d) o w = (Ok tt, w') /\
    hooks w' = hooks w /\
    trace w' = (trace w ++ added)%list /\
    existsb is_cancelConnection added = false /\
    existsb (is_alert "Connection Failed") added = false.
Proof.
  unfold subscribeToHeartRate, monitor. rewrite run_try_catch. world.
  destruct (o (monitorCharacteristicForService d HEART_RATE_SERVICE HEART_RATE_MEASUREMENT))
    as [s|e]; world; do 2 eexists; repeat split; reflexivity.
Qed.

(** The [try]/[catch] statement of [connectToDevice] is flag-blind. *)
Lemma connectToDevice_shape r device :
  exists X,
    connectToDevice r device =
      try_finally X (setIsConnecting false ;; setIsScanning false) /\
    flag_blind X.
Proof.
  eexists. split; [reflexivity|].
  apply flag_blind_try_catch; [|intro; blind].
  destruct (isConnecting (snap r)); [exact I|].
  apply flag_blind_bind; [blind_step|]. intros _. blind.
Qed.

End Connect.

(** Whatever the transport answers, the rest of a connect attempt completes
    without throwing, requests no disconnect, and leaves the device list, the
    flags and the heart rate alone; when connection, discovery and
    enumeration succeed it ends connected, whatever the reads and the
    subscription do. *)
Lemma run_afterConnect `{BufferCodec} r a (o : Oracle) w :
  exists w' added,
    run (afterConnect r a) o w = (Ok tt, w') /\
    trace w' = (trace w ++ added)%list /\
    existsb is_cancelConnection added = false /\
    devices (hooks w') = devices (hooks w) /\
    isScanning (hooks w') = isScanning (hooks w) /\
    isConnecting (hooks w') = isConnecting (hooks w) /\
    heartRate (hooks w') = heartRate (hooks w) /\
    (forall c ss,
       a = Ok c ->
       (exists c', o (discoverAllServicesAndCharacteristics c) = Ok c') ->
       o (services c) = Ok ss ->
       (forall s, In s ss -> exists cs, o (characteristics s) = Ok cs) ->
       connectedDevice (hooks w') = Some c /\
       existsb (is_alert "Connection Failed") added = false /\
       In (Alert_alert "Connected"
             ("Connected to " ++ or_else (name c) (id c))) added).
Proof.
  unfold afterConnect. rewrite run_try_catch.
  destruct a as [c|e];
    [|world; do 2 eexists; do 7 (split; [reflexivity|]);
      intros c0 ss0 Ha; discriminate Ha].
  change (lift (Ok c)) with (@Ret Device c). cbn [bind].
  rewrite run_bind, run_call.
  destruct (o (discoverAllServicesAndCharacteristics c)) as [c'|e] eqn:Ed;
    [|world; do 2 eexists; do 7 (split; [reflexivity|]);
      intros c0 ss0 [= <-] [c' Hd] _ _; congruence].
  rewrite run_bind, run_effect, run_bind, run_call.
  destruct (o (services c)) as [ss|e] eqn:Es;
    [|world; do 2 eexists; do 7 (split; [reflexivity|]);
      intros c0 ss0 [= <-] _ Hs _; congruence].
  rewrite run_bind.
  match goal with |- context [run (for_of ss _) o ?w1] =>
    destruct (run_logServices ss o w1) as [res [a1 [Hr [Hn Hok]]]] end.
  rewrite Hr. cbv beta iota.
  pose proof (enumeration_no_cancel a1 Hn) as Hn1.
  pose proof (enumeration_no_alert "Connection Failed" a1 Hn) as Hn1'.
  destruct res as [[]|e].
  - rewrite run_bind.
    change (run (setConnectedDevice (Some c)) o) with
      (fun w0 => (@Ok unit tt,
                  with_hooks (fun s => mkState (devices s) (isScanning s) (Some c)
                                (isConnecting s) (deviceInfo s) (heartRate s)) w0)).
    cbv beta iota.
    rewrite run_bind, run_readDeviceInfoAndBattery. cbv beta iota. rewrite run_bind.
    match goal with |- context [run (subscribeToHeartRate r c) o ?w1] =>
      destruct (run_subscribeToHeartRate r c o w1)
        as [w2 [a2 [Hs [Hh [Ht [Hn2 Hn2']]]]]] end.
    rewrite Hs, run_effect. world. rewrite Hh, Ht. world.
    do 2 eexists. split; [reflexivity|]. split; [reflexivity|].
    split; [simpl; rewrite existsb_app, Hn1; simpl;
            rewrite existsb_app, Hn2; reflexivity|].
    do 4 (split; [reflexivity|]).
    intros c0 ss0 [= <-] _ _ _. split; [reflexivity|]. split.
    + simpl. rewrite existsb_app, Hn1'. simpl. rewrite existsb_app, Hn2'. reflexivity.
    + simpl. right. right. right. rewrite in_app_iff. right.
      do 4 right. rewrite in_app_iff. right. left. reflexivity.
  - world. do 2 eexists. split; [reflexivity|]. split; [reflexivity|].
    split; [simpl; rewrite existsb_app, Hn1; reflexivity|].
    do 4 (split; [reflexivity|]).
    intros c0 ss0 [= <-] _ Hss Hall. rewrite Es in Hss. injection Hss as <-.
    specialize (Hok Hall). discriminate.
Qed.

(** The rest of a connect attempt when the connection or the discovery
    fails. *)
Lemma run_afterConnect_failed `{BufferCodec} r a (o : Oracle) w e :
  a = Throw e \/
  (exists c, a = Ok c /\ o (discoverAllServicesAndCharacteristics c) = Throw e) ->
  exists added,
    run (afterConnect r a) o w =
      (Ok tt, mkWorld (hooks w) (hrSubscription w) (monitors w) (trace w ++ added)) /\
    In (Alert_alert "Connection Failed" (message e)) added.
Proof.
  unfold afterConnect. rewrite run_try_catch.
  intros [-> | [c [-> Hd]]].
  - world. eexists. split; [reflexivity|]. simpl. tauto.
  - change (lift (Ok c)) with (@Ret Device c). cbn [bind].
    rewrite run_bind, run_call, Hd. world.
    eexists. split; [reflexivity|]. simpl. tauto.
Qed.

(** C2, counterexample.  The transport connects to the device and the service
    discovery then fails: the attempt ends without ever requesting a
    disconnect of the transport it had connected.  And when a characteristic
    read or the subscription fails, no failure is reported at all: the
    attempt ends connected. *)
Lemma connect_failure_leaves_transport :
  let o := Scenario.rejecting Scenario.is_discover Scenario.timeout
                              Scenario.transport in
  let w' := snd (run (connectToDevice Scenario.r0 Scenario.polar) o Scenario.w0) in
  let o2 := Scenario.rejecting
              (fun q => Scenario.is_read BATTERY_LEVEL q || Scenario.is_monitor q)
              Scenario.timeout Scenario.transport in
  let w2 := snd (run (connectToDevice Scenario.r0 Scenario.polar) o2 Scenario.w0) in
  (o (manager_connectToDevice (id Scenario.polar)) = Ok Scenario.polar /\
   o (discoverAllServicesAndCharacteristics Scenario.polar) = Throw Scenario.timeout /\
   In (Call (manager_connectToDevice "AA:01")) (trace w') /\
   existsb is_cancelConnection (trace w') = false) /\
  (existsb (is_alert "Connection Failed") (trace w2) = false /\
   sessionState (hooks w2) = Connected).
Proof.
  repeat split. simpl. tauto.
Qed.

(** C2, as the code has it.  A connect attempt made while [isConnecting] is
    false always returns normally with both flags cleared, and never requests
    a transport disconnect.  When the transport connection or the service
    discovery fails, "Connection Failed" is reported with the message of the
    cause, and the connected device, the device information and the
    subscription are as they were before the attempt: the session is idle
    again if it was idle.  When connection, discovery and enumeration
    succeed, the attempt ends connected and reports no failure, whatever the
    characteristic reads and the subscription do. *)
Theorem connect_failure_rolls_back `{BufferCodec} r device (o : Oracle) w :
  isConnecting (snap r) = false ->
  exists w' added,
    run (connectToDevice r device) o w = (Ok tt, w') /\
    trace w' = (trace w ++ added)%list /\
    existsb is_cancelConnection added = false /\
    isConnecting (hooks w') = false /\
    isScanning (hooks w') = false /\
    (forall e,
       o (manager_connectToDevice (id device)) = Throw e \/
       (exists c, o (manager_connectToDevice (id device)) = Ok c /\
                  o (discoverAllServicesAndCharacteristics c) = Throw e) ->
       In (Alert_alert "Connection Failed" (message e)) added /\
       connectedDevice (hooks w') = connectedDevice (hooks w) /\
       deviceInfo (hooks w') = deviceInfo (hooks w) /\
       hrSubscription w' = hrSubscription w /\
       monitors w' = monitors w /\
       (connectedDevice (hooks w) = None -> sessionState (hooks w') = Idle)) /\
    (forall c ss,
       o (manager_connectToDevice (id device)) = Ok c ->
       (exists c', o (discoverAllServicesAndCharacteristics c) = Ok c') ->
       o (services c) = Ok ss ->
       (forall s, In s ss -> exists cs, o (characteristics s) = Ok cs) ->
       sessionState (hooks w') = Connected /\
       connectedDevice (hooks w') = Some c /\
       existsb (is_alert "Connection Failed") added = false).
Proof.
  intros Hc. rewrite run_connectToDevice by assumption. rewrite run_try_finally.
  match goal with |- context [run (afterConnect r ?a) o ?wx] =>
    set (a0 := a); set (w1 := wx) end.
  destruct (run_afterConnect r a0 o w1)
    as (w' & added & Hr & Ht & Hn & Hd & Hsc & Hco & Hhr & Hconn).
  rewrite Hr. world.
  do 2 eexists. split; [reflexivity|]. simpl. rewrite Ht. subst w1. simpl.
  rewrite <- List.app_assoc.
  split; [reflexivity|]. split; [exact Hn|]. do 2 (split; [reflexivity|]).
  split.
  - intros e He.
    destruct (run_afterConnect_failed r a0 o
                (mkWorld (mkState (devices (hooks w)) (isScanning (hooks w))
                            (connectedDevice (hooks w)) true
                            (deviceInfo (hooks w)) (heartRate (hooks w)))
                         (hrSubscription w) (monitors w)
                         (trace w ++ [console_log "Connecting to device:";
                                      manager_stopDeviceScan;
                                      Call (manager_connectToDevice (id device))]))
                e He) as (added' & Hr' & Hin).
    rewrite Hr in Hr'. injection Hr' as ->. simpl in Ht |- *.
    apply app_inv_head in Ht. subst added'.
    split; [do 3 right; exact Hin|]. repeat split.
    intros Hnone. unfold sessionState. simpl. rewrite Hnone. reflexivity.
  - intros c ss Ha Hdisc Hss Hall.
    destruct (Hconn c ss Ha Hdisc Hss Hall) as (Hcd & Hna & _).
    unfold sessionState. simpl. rewrite Hcd.
    split; [reflexivity|]. split; [reflexivity|]. exact Hna.
Qed.

Lemma connect_failure_rolls_back_witness :
  let o := Scenario.rejecting Scenario.is_discover Scenario.timeout
                              Scenario.transport in
  isConnecting (snap Scenario.r0) = false /\
  o (discoverAllServicesAndCharacteristics Scenario.polar) = Throw Scenario.timeout /\
  exists w' added,
    run (connectToDevice Scenario.r0 Scenario.polar) o Scenario.w0 = (Ok tt, w') /\
    trace w' = (trace Scenario.w0 ++ added)%list /\
    In (Alert_alert "Connection Failed" "Operation timed out") added /\
    existsb is_cancelConnection added = false /\
    sessionState (hooks w') = Idle.
Proof.
  intros o. split; [reflexivity|]. split; [reflexivity|].
  destruct (connect_failure_rolls_back Scenario.r0 Scenario.polar o Scenario.w0 eq_refl)
    as (w' & added & Hrun & Ht & Hn & _ & _ & Hfail & _).
  exists w', added. split; [exact Hrun|]. split; [exact Ht|].
  destruct (Hfail Scenario.timeout
              (or_intror (ex_intro _ Scenario.polar (conj eq_refl eq_refl))))
    as (Hin & _ & _ & _ & _ & Hidle).
  split; [exact Hin|]. split; [exact Hn|]. exact (Hidle eq_refl).
Defined.

(** C1, counterexample.  An attempt on one device is suspended at the
    transport connect, and the session is Connecting.  A second connect call
    does not fail: its promise resolves; and it does not leave the attempt's
    state alone: the session no longer reads as Connecting. *)
Lemma second_connect_clears_connecting :
  let second := run (connectToDevice Scenario.r_connecting Scenario.strap)
                    Scenario.transport Scenario.w_connecting in
  (exists k, Scenario.attempt = Ask (manager_connectToDevice "AA:01") k) /\
  isConnecting (snap Scenario.r_connecting) = true /\
  sessionState (hooks Scenario.w_connecting) = Connecting /\
  fst second = Ok tt /\
  sessionState (hooks (snd second)) = Idle.
Proof.
  split; [eexists; reflexivity|]. repeat split.
Qed.

(** A flag-blind [try] block under the [finally] block of [connectToDevice],
    run up to an [await]: what will be resumed has the same shape. *)
Lemma advance_try_finally {A} (X : Task A) (o : Oracle) :
  flag_blind X -> forall w,
  suspended (fst (advance (try_finally X (setIsConnecting false ;; setIsScanning false)) o w))
    = true ->
  exists X',
    flag_blind X' /\
    resume (fst (advance (try_finally X (setIsConnecting false ;; setIsScanning false)) o w)) o
      = try_finally X' (setIsConnecting false ;; setIsScanning false).
Proof.
  induction X as [a|e|g k IH|k IH|q k IH]; simpl; intros HX w Hs.
  - discriminate.
  - discriminate.
  - destruct HX as [_ Hk]. exact (IH Hk _ Hs).
  - destruct (HX w w (same_session_refl w)) as [_ Hk]. exact (IH w Hk w Hs).
  - destruct (awaited q).
    + exists (k (o q)). split; [apply HX|reflexivity].
    + exact (IH (o q) (HX (o q)) w Hs).
Qed.

(** [advance] stops at an [await] or at the end of the task. *)
Lemma advance_finished {A} (t : Task A) (o : Oracle) : forall w,
  suspended (fst (advance t o w)) = false ->
  finished (fst (advance t o w)) = true.
Proof.
  induction t as [a|e|g k IH|k IH|q k IH]; simpl; intros w Hs; auto.
  destruct (awaited q); simpl in *; [discriminate|auto].
Qed.

Lemma settle_finished {A} n (t : Task A) (o : Oracle) w :
  finished t = true -> suspended (fst (settle n t o w)) = false.
Proof.
  revert t w. induction n as [|n IH]; intros t w Hf;
    destruct t; simpl in *; try discriminate; auto.
Qed.

Lemma settle_try_finally {A} n : forall (X : Task A) (o : Oracle) w,
  flag_blind X ->
  suspended (fst (settle n (try_finally X (setIsConnecting false ;; setIsScanning false)) o w))
    = true ->
  exists X',
    flag_blind X' /\
    resume (fst (settle n (try_finally X (setIsConnecting false ;; setIsScanning false)) o w)) o
      = try_finally X' (setIsConnecting false ;; setIsScanning false).
Proof.
  induction n as [|n IH]; intros X o w HX.
  - apply advance_try_finally, HX.
  - cbn [settle].
    pose proof (advance_try_finally X o HX w) as Hadv.
    pose proof (advance_finished
                  (try_finally X (setIsConnecting false ;; setIsScanning false)) o w)
      as Hfin.
    destruct (advance (try_finally X _) o w) as [t1 w1].
    simpl in Hadv, Hfin.
    destruct (suspended t1) eqn:Es.
    + destruct (Hadv eq_refl) as [X1 [HX1 Hr]]. rewrite Hr. apply IH, HX1.
    + intros Hs. exfalso.
      assert (Hf : finished (resume t1 o) = true).
      { specialize (Hfin eq_refl). destruct t1; simpl in *; auto; discriminate. }
      rewrite (settle_finished n (resume t1 o) o w1 Hf) in Hs. discriminate.
Qed.

(** Two runs of what remains of a connect attempt, from worlds that agree up
    to the flags, end alike. *)
Lemma run_try_finally_flags {A} (X : Task A) (o : Oracle) w1 w2 :
  flag_blind X -> same_session w1 w2 ->
  run (try_finally X (setIsConnecting false ;; setIsScanning false)) o w1 =
  run (try_finally X (setIsConnecting false ;; setIsScanning false)) o w2.
Proof.
  intros HX Hs. rewrite !run_try_finally.
  destruct (run_flag_blind X o HX w1 w2 Hs) as [Hres Hw].
  destruct (run X o w1) as [res1 w1'].
  destruct (run X o w2) as [res2 w2'].
  simpl in Hres, Hw. subst res2.
  destruct Hw as (Hd & Hcd & Hi & Hh & Hsub & Hm & Ht).
  simpl. cbv [with_hooks]. simpl. rewrite Hd, Hcd, Hi, Hh, Hsub, Hm, Ht.
  reflexivity.
Qed.

(** C1, as the code has it.  A connect call made by a render in which
    [isConnecting] is true completes at once and without error; it sends
    nothing to the transport, shows nothing, and leaves the device list, the
    connected device, the device information, the heart rate and the
    subscription as they were.  A connect attempt that is in flight, waiting
    at any of its awaits, goes on to the same result and the same final state
    as it would have without that call. *)
Theorem connect_while_connecting `{BufferCodec} r device (o : Oracle) w :
  isConnecting (snap r) = true ->
  exists w',
    advance (connectToDevice r device) o w = (Ret tt, w') /\
    run (connectToDevice r device) o w = (Ok tt, w') /\
    same_session w' w /\
    forall n r0 d0 (o0 : Oracle) w0,
      let inflight := fst (settle n (connectToDevice r0 d0) o0 w0) in
      suspended inflight = true ->
      run inflight o0 w' = run inflight o0 w.
Proof.
  intros Hc. eexists. split; [apply advance_connectToDevice_guarded, Hc|].
  split.
  { rewrite <- (run_advance (connectToDevice r device) o w).
    rewrite advance_connectToDevice_guarded by assumption. reflexivity. }
  set (w' := with_hooks _ w).
  assert (Hs : same_session w' w) by (subst w'; unfold same_session; simpl; tauto).
  split; [exact Hs|].
  intros n r0 d0 o0 w0 inflight Hsusp. subst inflight.
  destruct (connectToDevice_shape r0 d0) as [X [HX Hb]].
  rewrite HX in Hsusp |- *.
  destruct (settle_try_finally n X o0 w0 Hb Hsusp) as [X' [Hb' Hr]].
  destruct (fst (settle n _ o0 w0)) as [| | | |q k]; try discriminate.
  simpl in Hr. simpl. rewrite Hr.
  apply run_try_finally_flags; assumption.
Qed.

Lemma connect_while_connecting_witness :
  isConnecting (snap Scenario.r_connecting) = true /\
  suspended Scenario.attempt = true /\
  exists w',
    run (connectToDevice Scenario.r_connecting Scenario.strap)
        Scenario.transport Scenario.w_connecting = (Ok tt, w') /\
    same_session w' Scenario.w_connecting /\
    run Scenario.attempt Scenario.transport w'
    = run Scenario.attempt Scenario.transport Scenario.w_connecting.
Proof.
  split; [reflexivity|]. split; [reflexivity|].
  destruct (connect_while_connecting
              Scenario.r_connecting Scenario.strap Scenario.transport
              Scenario.w_connecting eq_refl)
    as (w' & _ & Hrun & Hs & Hin).
  exists w'. split; [exact Hrun|]. split; [exact Hs|].
  exact (Hin 0 Scenario.r0 Scenario.polar Scenario.transport Scenario.w0 eq_refl).
Defined.



(** *** The subscription at disconnect *)

(** The order the source text asks for, obtained when the handler runs in the
    render whose variable holds the subscription: the removal is requested
    before the disconnect, and a later notification finds no listener. *)
Lemma disconnectDevice_same_render `{BufferCodec} r dev s (o : Oracle) w :
  connectedDevice (snap r) = Some dev ->
  nth (rid r) (hrSubscription w) None = Some s ->
  o (remove s) = Ok tt ->
  exists k w',
    advance (disconnectDevice r) o w = (Ask (cancelConnection dev) k, w') /\
    trace w' = (trace w ++ [Call (remove s); Call (cancelConnection dev)])%list /\
    listening s w' = false /\
    forall error c, run (notify s error c) o w' = (Ok tt, w').
Proof.
  intros Hc Hs Hr. unfold disconnectDevice. rewrite Hc. simpl.
  rewrite Hs. simpl. rewrite Hr. simpl.
  do 2 eexists. split; [reflexivity|]. world.
  assert (Hl : forall l,
             existsb (Nat.eqb s) (filter (fun x => negb (Nat.eqb s x)) l) = false).
  { induction l as [|x l IH]; simpl; [reflexivity|].
    destruct (Nat.eqb s x) eqn:E; simpl; [exact IH|]. rewrite E. exact IH. }
  split; [reflexivity|]. split.
  - unfold listening. simpl. apply Hl.
  - intros error c. unfold notify, listening. simpl. rewrite Hl. reflexivity.
Qed.

(** The handler of a render that has just been produced finds its own
    [hrSubscription] variable, which is [null]: it never requests a removal,
    and the library keeps every listener it had. *)
Lemma disconnectDevice_new_render `{BufferCodec} (o : Oracle) w :
  let r := fst (render w) in
  let w' := snd (run (disconnectDevice r) o (snd (render w))) in
  monitors w' = monitors w /\
  exists added,
    trace w' = (trace w ++ added)%list /\ existsb is_remove added = false.
Proof.
  unfold render. simpl fst. simpl snd. unfold disconnectDevice. simpl snap.
  destruct (connectedDevice (hooks w)) as [dev|].
  - rewrite run_try_finally, run_try_catch. simpl. rewrite nth_fresh. simpl.
    destruct (o (cancelConnection dev)); world; (split; [reflexivity|]);
      eexists; split; reflexivity.
  - simpl. split; [reflexivity|]. exists []. rewrite app_nil_r.
    split; reflexivity.
Qed.

(** C3, at the failing input.  A device is connected and streaming: the
    subscription is held by the variable of the render that connected, and the
    sample is 72.  "Disconnect" is pressed in the current render and runs up
    to the pending transport disconnect: no removal has been requested, the
    listener is still registered, and a notification arriving now changes the
    sample to 75. *)
Theorem disconnect_keeps_subscription :
  nth (rid Scenario.r0) (hrSubscription Scenario.w_connected) None = Some 7 /\
  listening 7 Scenario.w_connected = true /\
  connectedDevice (snap Scenario.r_connected) = Some Scenario.polar /\
  heartRate (hooks Scenario.w_connected) = Some 72%Z /\
  (exists k, Scenario.disconnecting = Ask (cancelConnection Scenario.polar) k) /\
  existsb is_remove (trace Scenario.w_disconnecting) = false /\
  existsb is_cancelConnection (trace Scenario.w_disconnecting) = true /\
  listening 7 Scenario.w_disconnecting = true /\
  heartRate (hooks (snd (run (notify 7 None
                                (Some (Scenario.measurement (Some "AEs="))))
                             Scenario.transport Scenario.w_disconnecting)))
    = Some 75%Z.
Proof.
  repeat split; try reflexivity. eexists. reflexivity.
Qed.

(** * Further properties *)

(** ** The adapter gate of the scan *)

(** X1. When the adapter reports any state other than PoweredOn, [scanDevices]
    shows the "Bluetooth is Off" alert and returns: the device list and the
    session are not reset, no scan is started and no timer is set. *)
Theorem scanDevices_adapter_not_ready r (o : Oracle) w st :
  isScanning (snap r) = false ->
  o manager_state = Ok st ->
  st <> PoweredOn ->
  run (scanDevices r) o w =
  (Ok tt,
   mkWorld (hooks w) (hrSubscription w) (monitors w)
           (trace w ++
              [Call manager_state; console_log "Bluetooth initial state:";
               Alert_alert "Bluetooth is Off"
                           "Please turn on Bluetooth and try again."])).
Proof.
  intros H Hs Hst. unfold scanDevices. rewrite H.
  unfold ensureBluetoothOn, call. simpl. rewrite Hs.
  destruct st; try contradiction; world; reflexivity.
Qed.

Lemma scanDevices_adapter_not_ready_witness :
  devices (hooks Scenario.w_scanning) <> [] /\
  hooks (snd (run (scanDevices Scenario.r0) Cases.radio_off Scenario.w_scanning))
    = hooks Scenario.w_scanning /\
  existsb (is_alert "Bluetooth is Off")
     (trace (snd (run (scanDevices Scenario.r0) Cases.radio_off Scenario.w_scanning)))
    = true.
Proof.
  split; [discriminate|].
  rewrite (scanDevices_adapter_not_ready
             Scenario.r0 Cases.radio_off Scenario.w_scanning PoweredOff
             eq_refl eq_refl ltac:(discriminate)).
  split; reflexivity.
Defined.

(** X2. When [manager.state()] rejects, the promise of [scanDevices] rejects
    with that error (there is no [try] around it), and nothing in the
    component has changed. *)
Theorem scanDevices_state_rejected r (o : Oracle) w e :
  isScanning (snap r) = false ->
  o manager_state = Throw e ->
  run (scanDevices r) o w =
  (Throw e,
   mkWorld (hooks w) (hrSubscription w) (monitors w)
           (trace w ++ [Call manager_state])).
Proof.
  intros H Hs. unfold scanDevices. rewrite H.
  unfold ensureBluetoothOn, call. simpl. rewrite Hs. reflexivity.
Qed.

Lemma scanDevices_state_rejected_witness :
  run (scanDevices Scenario.r0)
      (Scenario.rejecting Cases.is_state Scenario.timeout Scenario.transport)
      Scenario.w0
  = (Throw Scenario.timeout,
     mkWorld (hooks Scenario.w0) (hrSubscription Scenario.w0)
             (monitors Scenario.w0) (trace Scenario.w0 ++ [Call manager_state])).
Proof.
  exact (scanDevices_state_rejected
           Scenario.r0
           (Scenario.rejecting Cases.is_state Scenario.timeout Scenario.transport)
           Scenario.w0 Scenario.timeout eq_refl eq_refl).
Defined.

(** ** The scan listener and the timer *)

Lemma step_scan_frame (o : Oracle) w ev :
  let w' := step_scan o w ev in
  (exists more, devices (hooks w') = (devices (hooks w) ++ more)%list) /\
  isScanning (hooks w') = (if has_error ev then false else isScanning (hooks w)) /\
  connectedDevice (hooks w') = connectedDevice (hooks w) /\
  isConnecting (hooks w') = isConnecting (hooks w) /\
  deviceInfo (hooks w') = deviceInfo (hooks w) /\
  heartRate (hooks w') = heartRate (hooks w) /\
  hrSubscription w' = hrSubscription w /\
  monitors w' = monitors w /\
  exists added, trace w' = (trace w ++ added)%list /\ forallb is_console added = true.
Proof.
  intros w'. split.
  { subst w'. rewrite step_scan_devices.
    destruct ev as [[e|] [d|]]; try (exists []; rewrite app_nil_r; reflexivity).
    destruct (truthy (name d)); [|exists []; rewrite app_nil_r; reflexivity].
    unfold addDevice. destruct (existsb _ _); simpl.
    - exists []. rewrite app_nil_r. reflexivity.
    - eexists. reflexivity. }
  subst w'. destruct ev as [[e|] [d|]]; unfold step_scan, has_error; simpl;
    try (do 7 (split; [reflexivity|]); eexists; split; reflexivity);
    try (do 7 (split; [reflexivity|]); exists []; rewrite app_nil_r; split; reflexivity).
  destruct (truthy (name d)); simpl;
    [|do 7 (split; [reflexivity|]); exists []; rewrite app_nil_r; split; reflexivity].
  destruct (existsb _ _); simpl.
  - do 7 (split; [reflexivity|]). eexists; split; reflexivity.
  - do 7 (split; [reflexivity|]). exists []. rewrite app_nil_r. split; reflexivity.
Qed.

(** X3. Whatever events the scan listener receives, the device list only
    grows at its end, [isScanning] is cleared exactly when one of the events
    carried an error, and the session, the subscriptions and the listeners are
    untouched; the listener writes to the console and sends nothing to the
    transport. *)
Theorem deliver_scan_frame (o : Oracle) evs : forall w,
  let w' := deliver_scan o evs w in
  (exists more, devices (hooks w') = (devices (hooks w) ++ more)%list) /\
  isScanning (hooks w') = (if existsb has_error evs then false else isScanning (hooks w)) /\
  connectedDevice (hooks w') = connectedDevice (hooks w) /\
  isConnecting (hooks w') = isConnecting (hooks w) /\
  deviceInfo (hooks w') = deviceInfo (hooks w) /\
  heartRate (hooks w') = heartRate (hooks w) /\
  hrSubscription w' = hrSubscription w /\
  monitors w' = monitors w /\
  exists added, trace w' = (trace w ++ added)%list /\ forallb is_console added = true.
Proof.
  unfold deliver_scan.
  induction evs as [|ev evs IH]; intros w; simpl.
  - split; [exists []; rewrite app_nil_r; reflexivity|].
    do 7 (split; [reflexivity|]). exists []. rewrite app_nil_r. split; reflexivity.
  - destruct (step_scan_frame o w ev)
      as ([m1 Hd1] & Hs1 & Hc1 & Hi1 & Hf1 & Hh1 & Hv1 & Hm1 & [a1 [Ht1 Hq1]]).
    destruct (IH (step_scan o w ev))
      as ([m2 Hd2] & Hs2 & Hc2 & Hi2 & Hf2 & Hh2 & Hv2 & Hm2 & [a2 [Ht2 Hq2]]).
    split; [exists (m1 ++ m2)%list; rewrite Hd2, Hd1, <- List.app_assoc; reflexivity|].
    split; [rewrite Hs2, Hs1; destruct (has_error ev), (existsb has_error evs); reflexivity|].
    split; [congruence|]. split; [congruence|]. split; [congruence|].
    split; [congruence|]. split; [congruence|]. split; [congruence|].
    exists (a1 ++ a2)%list. split.
    + rewrite Ht2, Ht1, <- List.app_assoc. reflexivity.
    + rewrite forallb_app, Hq1, Hq2. reflexivity.
Qed.

Lemma addDevice_well_listed d ds :
  truthy (name d) = true -> well_listed ds -> well_listed (addDevice d ds).
Proof.
  intros Hn [Hnd Hall]. unfold addDevice.
  destruct (existsb (fun x => id x =? id d) ds) eqn:E; simpl; [split; assumption|].
  split.
  - rewrite map_app. simpl.
    apply NoDup_app; [exact Hnd | constructor; [intros []|constructor] |].
    intros i Hi [<-|[]]. apply in_map_iff in Hi. destruct Hi as [x [Hx Hin]].
    assert (Ht : existsb (fun x => id x =? id d) ds = true).
    { apply existsb_exists. exists x. split; [exact Hin|]. rewrite Hx. apply String.eqb_refl. }
    congruence.
  - apply Forall_app. split; [exact Hall|]. constructor; [exact Hn|constructor].
Qed.

(** X4. The scan listener keeps the device list well formed from any well
    formed list, not only from the empty one: identities stay distinct and
    names non-empty. *)
Theorem deliver_scan_well_listed (o : Oracle) evs : forall w,
  well_listed (devices (hooks w)) ->
  well_listed (devices (hooks (deliver_scan o evs w))).
Proof.
  unfold deliver_scan.
  induction evs as [|ev evs IH]; intros w Hw; simpl; [exact Hw|].
  apply IH. rewrite step_scan_devices.
  destruct ev as [[e|] [d|]]; try exact Hw.
  destruct (truthy (name d)) eqn:En; [|exact Hw].
  apply addDevice_well_listed; assumption.
Qed.

Lemma deliver_scan_well_listed_witness :
  well_listed (devices (hooks Scenario.w_scanning)) /\
  well_listed (devices (hooks (deliver_scan Scenario.transport
                                 [(None, Some Cases.renamed); (None, Some Scenario.beacon)]
                                 Scenario.w_scanning))).
Proof.
  assert (H : well_listed (devices (hooks Scenario.w_scanning))).
  { split.
    - simpl. repeat constructor; simpl; intuition discriminate.
    - repeat constructor. }
  split; [exact H|].
  exact (deliver_scan_well_listed Scenario.transport
           [(None, Some Cases.renamed); (None, Some Scenario.beacon)]
           Scenario.w_scanning H).
Defined.

(** X5. An advertisement of an identity that is already listed changes
    nothing in the list, even when it carries another name: the entry first
    stored is kept. *)
Theorem relisted_identity_ignored (o : Oracle) w d old :
  In old (devices (hooks w)) ->
  id old = id d ->
  devices (hooks (step_scan o w (None, Some d))) = devices (hooks w).
Proof.
  intros Hin Hid. rewrite step_scan_devices.
  destruct (truthy (name d)); [|reflexivity].
  unfold addDevice.
  assert (E : existsb (fun x => id x =? id d) (devices (hooks w)) = true).
  { apply existsb_exists. exists old. split; [exact Hin|]. rewrite Hid. apply String.eqb_refl. }
  rewrite E. reflexivity.
Qed.

Lemma relisted_identity_ignored_witness :
  name Cases.renamed <> name Scenario.polar /\
  devices (hooks (step_scan Scenario.transport Scenario.w_scanning
                            (None, Some Cases.renamed)))
    = [Scenario.polar; Scenario.strap].
Proof.
  split; [discriminate|].
  rewrite (relisted_identity_ignored Scenario.transport Scenario.w_scanning
             Cases.renamed Scenario.polar (or_introl eq_refl) eq_refl).
  reflexivity.
Defined.

(** X6. When the timer callback runs after a scan, it requests the scan stop
    and clears [isScanning]; the devices found are kept; and in the next render
    [scanDevices] passes its own guard again. *)
Theorem scan_window_closes r (o : Oracle) w evs :
  isScanning (snap r) = false ->
  o manager_state = Ok PoweredOn ->
  let w1 := deliver_scan o evs (snd (run (scanDevices r) o w)) in
  exists w2 before,
    run scanTimeout o w1 = (Ok tt, w2) /\
    isScanning (hooks w2) = false /\
    devices (hooks w2) = first_seen (accepted evs) /\
    trace w2 = (before ++ [console_log "Stopping BLE scan..."; manager_stopDeviceScan])%list /\
    isScanning (snap (fst (render w2))) = false.
Proof.
  intros H Hs w1. unfold scanTimeout. simpl.
  do 2 eexists. split; [reflexivity|]. simpl.
  split; [reflexivity|]. split.
  - subst w1. apply deliver_scan_from_empty.
    rewrite (run_scanDevices r o w H Hs). reflexivity.
  - split; [|reflexivity]. rewrite <- List.app_assoc. reflexivity.
Qed.

Lemma scan_window_closes_witness :
  let w1 := deliver_scan Scenario.transport Scenario.adverts
              (snd (run (scanDevices Scenario.r0) Scenario.transport Scenario.w0)) in
  isScanning (hooks w1) = true /\
  exists w2 before,
    run scanTimeout Scenario.transport w1 = (Ok tt, w2) /\
    isScanning (hooks w2) = false /\
    devices (hooks w2) = first_seen (accepted Scenario.adverts) /\
    trace w2 = (before ++ [console_log "Stopping BLE scan..."; manager_stopDeviceScan])%list /\
    isScanning (snap (fst (render w2))) = false.
Proof.
  split; [reflexivity|].
  exact (scan_window_closes Scenario.r0 Scenario.transport Scenario.w0
           Scenario.adverts eq_refl eq_refl).
Defined.

(** X7. The scan listener does not look at [isScanning]: an advertisement that
    the transport still delivers after the timer callback has run is appended
    like any other. *)
Theorem late_advertisement_accepted (o : Oracle) w d :
  truthy (name d) = true ->
  existsb (fun x => id x =? id d) (devices (hooks w)) = false ->
  let closed := snd (run scanTimeout o w) in
  isScanning (hooks closed) = false /\
  devices (hooks (step_scan o closed (None, Some d))) = (devices (hooks w) ++ [d])%list.
Proof.
  intros Hn He closed. split; [reflexivity|].
  rewrite step_scan_devices, Hn. subst closed. simpl.
  unfold addDevice. rewrite He. reflexivity.
Qed.

Lemma late_advertisement_accepted_witness :
  let closed := snd (run scanTimeout Scenario.transport Scenario.w0) in
  isScanning (hooks closed) = false /\
  devices (hooks (step_scan Scenario.transport closed (None, Some Scenario.polar)))
    = [Scenario.polar].
Proof.
  exact (late_advertisement_accepted Scenario.transport Scenario.w0 Scenario.polar
           eq_refl eq_refl).
Defined.

(** ** What a handler never does *)

Section Steps.
Variable R : World -> World -> Prop.
Hypothesis R_refl : forall w, R w w.
Hypothesis R_trans : forall a b c, R a b -> R b c -> R a c.

Lemma run_steps_in {A} (t : Task A) (o : Oracle) :
  steps_in R t -> forall w, R w (snd (run t o w)).
Proof.
  induction t as [a|e|g k IH|k IH|q k IH]; simpl; intros Ht w.
  - apply R_refl.
  - apply R_refl.
  - destruct Ht as [Hg Hk]. eapply R_trans; [apply Hg|apply IH, Hk].
  - apply IH, Ht.
  - apply IH, Ht.
Qed.

Lemma steps_in_bind {A B} (t : Task A) (f : A -> Task B) :
  steps_in R t -> (forall a, steps_in R (f a)) -> steps_in R (bind t f).
Proof.
  intros Ht Hf. induction t as [a|e|g k IH|k IH|q k IH]; simpl in *; auto.
  destruct Ht. auto.
Qed.

Lemma steps_in_try_catch {A} (t : Task A) h :
  steps_in R t -> (forall e, steps_in R (h e)) -> steps_in R (try_catch t h).
Proof.
  intros Ht Hh. induction t as [a|e|g k IH|k IH|q k IH]; simpl in *; auto.
  destruct Ht. auto.
Qed.

Lemma steps_in_try_finally {A} (t : Task A) f :
  steps_in R t -> steps_in R f -> steps_in R (try_finally t f).
Proof.
  intros Ht Hf. induction t as [a|e|g k IH|k IH|q k IH]; simpl in *; auto.
  - apply steps_in_bind; [exact Hf|intros; exact I].
  - apply steps_in_bind; [exact Hf|intros; exact I].
  - destruct Ht. auto.
Qed.

Lemma steps_in_for_of {A} (l : list A) body :
  (forall x, steps_in R (body x)) -> steps_in R (for_of l body).
Proof.
  intros Hb. induction l as [|x l IH]; simpl; [exact I|].
  apply steps_in_bind; auto.
Qed.

Lemma steps_in_lift {A} (r : result A) : steps_in R (lift r).
Proof. destruct r; exact I. Qed.

End Steps.

Lemma listeners_kept_refl w : listeners_kept w w.
Proof. exists []. reflexivity. Qed.

Lemma listeners_kept_trans a b c :
  listeners_kept a b -> listeners_kept b c -> listeners_kept a c.
Proof.
  intros [l1 H1] [l2 H2]. exists (l2 ++ l1)%list.
  rewrite H2, H1, List.app_assoc. reflexivity.
Qed.

Lemma listeners_kept_listening w w' s :
  listeners_kept w w' -> listening s w = true -> listening s w' = true.
Proof.
  intros [l Hl] Hs. unfold listening in *. rewrite Hl.
  apply existsb_exists. apply existsb_exists in Hs. destruct Hs as [x [Hx Hs]].
  exists x. split; [apply in_or_app; right; exact Hx|exact Hs].
Qed.

(** Proves [steps_in R t] along the structure of [t]; [leaf] proves that one
    synchronous step respects [R]. *)
Ltac steps leaf :=
  lazymatch goal with
  | |- steps_in _ (Ret _) => exact I
  | |- steps_in _ (Raise _) => exact I
  | |- steps_in _ (if ?b then _ else _) => destruct b; steps leaf
  | |- steps_in _ (match ?x with Some _ => _ | None => _ end) =>
      destruct x; steps leaf
  | |- steps_in _ (try_finally _ _) => apply steps_in_try_finally; steps leaf
  | |- steps_in _ (try_catch _ _) =>
      apply steps_in_try_catch; [steps leaf | intro; steps leaf]
  | |- steps_in _ (bind _ _) =>
      apply steps_in_bind; [steps leaf | intro; steps leaf]
  | |- steps_in _ (for_of _ _) => apply steps_in_for_of; intro; steps leaf
  | |- steps_in _ (lift _) => apply steps_in_lift
  | |- steps_in _ (Act _ _) => split; [intros ?w0; leaf | steps leaf]
  | |- steps_in _ (Ask _ _) => intro; steps leaf
  | |- steps_in _ (Read _) => intro; steps leaf
  | |- steps_in _ ((fun _ => _) _) => cbv beta; steps leaf
  | |- _ =>
      progress unfold call, effect, setDevices, setIsScanning, setConnectedDevice,
        setIsConnecting, setDeviceInfo, setHeartRate, set_hrSubscription,
        get_hrSubscription, monitor, logService, logCharacteristic,
        readDeviceInfoAndBattery, safeRead, readBatteryLevel,
        subscribeToHeartRate, ensureBluetoothOn;
      steps leaf
  end.

(** A step that leaves the registry alone, or adds one listener to it. *)
Ltac kept_leaf := first [exists []; reflexivity | eexists [_]; reflexivity].

Ltac kept := steps ltac:(idtac; kept_leaf).

Lemma connectToDevice_steps `{BufferCodec} r device :
  steps_in listeners_kept (connectToDevice r device).
Proof.
  unfold connectToDevice. kept.
Qed.

Lemma scanDevices_steps r : steps_in listeners_kept (scanDevices r).
Proof.
  unfold scanDevices. kept.
Qed.

Lemma resetList_steps : steps_in listeners_kept resetList.
Proof.
  unfold resetList. kept.
Qed.

(** X12. A listener that the library holds is still held after [scanDevices],
    after [resetList] and after [connectToDevice], whatever the transport
    answers: none of them ever releases a subscription, so connecting to a
    second device leaves the first device's listener live. *)
Theorem listeners_survive `{BufferCodec} r device (o : Oracle) w s :
  listening s w = true ->
  listening s (snd (run (scanDevices r) o w)) = true /\
  listening s (snd (run resetList o w)) = true /\
  listening s (snd (run (connectToDevice r device) o w)) = true.
Proof.
  intros Hs. repeat split;
    (eapply listeners_kept_listening; [|exact Hs]);
    apply (run_steps_in listeners_kept listeners_kept_refl listeners_kept_trans).
  - apply scanDevices_steps.
  - apply resetList_steps.
  - apply connectToDevice_steps.
Qed.

Lemma listeners_survive_witness :
  listening 7 Scenario.w_connected = true /\
  listening 7 (snd (run (connectToDevice Scenario.r_connected Scenario.strap)
                        Scenario.transport Scenario.w_connected)) = true /\
  connectedDevice
    (hooks (snd (run (connectToDevice Scenario.r_connected Scenario.strap)
                     Scenario.transport Scenario.w_connected)))
    = Some Scenario.strap.
Proof.
  split; [reflexivity|]. split; [|reflexivity].
  apply (listeners_survive Scenario.r_connected Scenario.strap Scenario.transport
           Scenario.w_connected 7 eq_refl).
Defined.

(** ** The connect attempt *)

(** X10. A connect attempt that passes the guard sets [isConnecting], requests
    the scan stop and only then requests the transport connection, at which it
    waits; nothing else has changed by then. *)
Theorem connect_stops_scan_first `{BufferCodec} r device (o : Oracle) w :
  isConnecting (snap r) = false ->
  exists k,
    advance (connectToDevice r device) o w =
    (Ask (manager_connectToDevice (id device)) k,
     mkWorld (mkState (devices (hooks w)) (isScanning (hooks w))
                      (connectedDevice (hooks w)) true
                      (deviceInfo (hooks w)) (heartRate (hooks w)))
             (hrSubscription w) (monitors w)
             (trace w ++ [console_log "Connecting to device:";
                          manager_stopDeviceScan;
                          Call (manager_connectToDevice (id device))])).
Proof.
  intros Hc. unfold connectToDevice. rewrite Hc. world.
  eexists. reflexivity.
Qed.

Lemma connect_stops_scan_first_witness :
  isScanning (hooks Scenario.w_scanning) = true /\
  exists k,
    advance (connectToDevice Scenario.r_scanning Scenario.polar)
            Scenario.transport Scenario.w_scanning =
    (Ask (manager_connectToDevice "AA:01") k,
     mkWorld (mkState (devices (hooks Scenario.w_scanning)) true None true None None)
             (hrSubscription Scenario.w_scanning) (monitors Scenario.w_scanning)
             (trace Scenario.w_scanning ++
                [console_log "Connecting to device:"; manager_stopDeviceScan;
                 Call (manager_connectToDevice "AA:01")])).
Proof.
  split; [reflexivity|].
  exact (connect_stops_scan_first Scenario.r_scanning Scenario.polar
           Scenario.transport Scenario.w_scanning eq_refl).
Defined.

(** The two outcomes of [subscribeToHeartRate]. *)
Lemma run_subscribeToHeartRate_exact `{BufferCodec} r d (o : Oracle) w :
  run (subscribeToHeartRate r d) o w =
  (Ok tt,
   match o (monitorCharacteristicForService d HEART_RATE_SERVICE HEART_RATE_MEASUREMENT) with
   | Ok s =>
       mkWorld (hooks w) (store (rid r) (Some s) (hrSubscription w))
               (s :: monitors w)
               (trace w ++
                  [console_log "Subscribing to heart rate notifications...";
                   Call (monitorCharacteristicForService
                           d HEART_RATE_SERVICE HEART_RATE_MEASUREMENT)])
   | Throw e =>
       mkWorld (hooks w) (hrSubscription w) (monitors w)
               (trace w ++
                  [console_log "Subscribing to heart rate notifications...";
                   Call (monitorCharacteristicForService
                           d HEART_RATE_SERVICE HEART_RATE_MEASUREMENT);
                   console_error "Failed to subscribe to heart rate:" (message e)])
   end).
Proof.
  unfold subscribeToHeartRate, monitor. rewrite run_try_catch. world.
  destruct (o (monitorCharacteristicForService d HEART_RATE_SERVICE HEART_RATE_MEASUREMENT))
    as [s|e]; world; reflexivity.
Qed.

Lemma nth_store {A} (l : list A) i v d :
  i < length l -> nth i (store i v l) d = v.
Proof.
  revert i. induction l as [|x l IH]; intros [|i] Hi; simpl in *; try lia; auto.
  apply IH. lia.
Qed.

(** X21. [subscribeToHeartRate] never throws and never touches the hook cells.
    When the library returns a subscription it is stored in the variable of the
    calling render and its listener is registered; when the call throws, the
    variable and the registry are as before. *)
Theorem subscribeToHeartRate_outcome `{BufferCodec} r d (o : Oracle) w :
  rid r < length (hrSubscription w) ->
  exists w',
    run (subscribeToHeartRate r d) o w = (Ok tt, w') /\
    hooks w' = hooks w /\
    match o (monitorCharacteristicForService d HEART_RATE_SERVICE HEART_RATE_MEASUREMENT) with
    | Ok s =>
        nth (rid r) (hrSubscription w') None = Some s /\
        monitors w' = s :: monitors w
    | Throw e =>
        hrSubscription w' = hrSubscription w /\
        monitors w' = monitors w
    end.
Proof.
  intros Hr. rewrite run_subscribeToHeartRate_exact. eexists. split; [reflexivity|].
  destruct (o (monitorCharacteristicForService d HEART_RATE_SERVICE HEART_RATE_MEASUREMENT))
    as [s|e]; simpl.
  - split; [reflexivity|]. split; [apply nth_store, Hr|reflexivity].
  - repeat split.
Qed.

Lemma subscribeToHeartRate_outcome_witness :
  let o := Scenario.rejecting Scenario.is_monitor Scenario.timeout Scenario.transport in
  exists w',
    run (subscribeToHeartRate Scenario.r0 Scenario.polar) o Scenario.w0 = (Ok tt, w') /\
    hooks w' = hooks Scenario.w0 /\
    hrSubscription w' = hrSubscription Scenario.w0 /\
    monitors w' = monitors Scenario.w0.
Proof.
  intros o.
  exact (subscribeToHeartRate_outcome Scenario.r0 Scenario.polar o Scenario.w0
           (le_n 1)).
Defined.

Lemma run_connectToDevice_success `{BufferCodec} r device (o : Oracle) w c c' ss s :
  isConnecting (snap r) = false ->
  o (manager_connectToDevice (id device)) = Ok c ->
  o (discoverAllServicesAndCharacteristics c) = Ok c' ->
  o (services c) = Ok ss ->
  (forall x, In x ss -> exists cs, o (characteristics x) = Ok cs) ->
  o (monitorCharacteristicForService c HEART_RATE_SERVICE HEART_RATE_MEASUREMENT) = Ok s ->
  exists enumeration,
    forallb is_enumeration enumeration = true /\
    run (connectToDevice r device) o w =
    (Ok tt,
     mkWorld
       (mkState (devices (hooks w)) false (Some c) false
          (Some (mkDeviceInfo
                   (match subread_text o c DEVICE_INFORMATION MANUFACTURER_NAME with
                    | Ok m => m
                    | Throw _ => "N/A"
                    end)
                   (match subread_uint8 o c BATTERY_SERVICE BATTERY_LEVEL with
                    | Ok n => VNum n
                    | Throw _ => VStr "N/A"
                    end)))
          (heartRate (hooks w)))
       (store (rid r) (Some s) (hrSubscription w))
       (s :: monitors w)
       (trace w ++
          [console_log "Connecting to device:"; manager_stopDeviceScan;
           Call (manager_connectToDevice (id device));
           Call (discoverAllServicesAndCharacteristics c);
           console_log "Connected to device:"; Call (services c)] ++
          enumeration ++
          [Call (readCharacteristicForService c DEVICE_INFORMATION MANUFACTURER_NAME);
           Call (readCharacteristicForService c BATTERY_SERVICE BATTERY_LEVEL);
           console_log "Manufacturer:"; console_log "Battery Level:";
           console_log "Subscribing to heart rate notifications...";
           Call (monitorCharacteristicForService
                   c HEART_RATE_SERVICE HEART_RATE_MEASUREMENT);
           Alert_alert "Connected"
             ("Connected to " ++ or_else (name c) (id c))])).
Proof.
  intros Hc Hco Hd Hs Hall Hm.
  rewrite run_connectToDevice by assumption. rewrite run_try_finally.
  unfold afterConnect. rewrite run_try_catch, Hco.
  change (lift (Ok c)) with (@Ret Device c). cbn [bind].
  rewrite run_bind, run_call, Hd.
  rewrite run_bind, run_effect, run_bind, run_call, Hs.
  rewrite run_bind.
  match goal with |- context [run (for_of ss _) o ?w1] =>
    destruct (run_logServices ss o w1) as [res [a1 [Hr [Hn Hok]]]] end.
  rewrite Hr. cbv beta iota. rewrite (Hok Hall).
  rewrite run_bind.
  change (run (setConnectedDevice (Some c)) o) with
    (fun w0 => (@Ok unit tt,
                with_hooks (fun s => mkState (devices s) (isScanning s) (Some c)
                              (isConnecting s) (deviceInfo s) (heartRate s)) w0)).
  cbv beta iota.
  rewrite run_bind, run_readDeviceInfoAndBattery. cbv beta iota.
  rewrite run_bind, run_subscribeToHeartRate_exact, Hm, run_effect.
  exists a1. split; [exact Hn|]. world. reflexivity.
Qed.

(** X11. A connect attempt on which connection, discovery, enumeration and
    subscription succeed talks to the transport in this order: scan stop,
    connect, discovery, service enumeration, manufacturer read, battery read,
    subscribe; then it shows "Connected to" with the name of the device, or its
    id when it has no name.  It ends connected, with [isConnecting] and
    [isScanning] false, the device list as it was,
    the subscription in the variable of the calling render and its listener
    registered. *)
Theorem connect_success_order `{BufferCodec} r device (o : Oracle) w c c' ss s :
  isConnecting (snap r) = false ->
  rid r < length (hrSubscription w) ->
  o (manager_connectToDevice (id device)) = Ok c ->
  o (discoverAllServicesAndCharacteristics c) = Ok c' ->
  o (services c) = Ok ss ->
  (forall x, In x ss -> exists cs, o (characteristics x) = Ok cs) ->
  o (monitorCharacteristicForService c HEART_RATE_SERVICE HEART_RATE_MEASUREMENT) = Ok s ->
  exists w' enumeration,
    run (connectToDevice r device) o w = (Ok tt, w') /\
    forallb is_enumeration enumeration = true /\
    trace w' =
      (trace w ++
         [console_log "Connecting to device:"; manager_stopDeviceScan;
          Call (manager_connectToDevice (id device));
          Call (discoverAllServicesAndCharacteristics c);
          console_log "Connected to device:"; Call (services c)] ++
         enumeration ++
         [Call (readCharacteristicForService c DEVICE_INFORMATION MANUFACTURER_NAME);
          Call (readCharacteristicForService c BATTERY_SERVICE BATTERY_LEVEL);
          console_log "Manufacturer:"; console_log "Battery Level:";
          console_log "Subscribing to heart rate notifications...";
          Call (monitorCharacteristicForService
                  c HEART_RATE_SERVICE HEART_RATE_MEASUREMENT);
          Alert_alert "Connected"
            ("Connected to " ++ or_else (name c) (id c))])%list /\
    connectedDevice (hooks w') = Some c /\
    isConnecting (hooks w') = false /\
    isScanning (hooks w') = false /\
    sessionState (hooks w') = Connected /\
    devices (hooks w') = devices (hooks w) /\
    nth (rid r) (hrSubscription w') None = Some s /\
    listening s w' = true.
Proof.
  intros Hc Hr Hco Hd Hs Hall Hm.
  destruct (run_connectToDevice_success r device o w c c' ss s Hc Hco Hd Hs Hall Hm)
    as (enumeration & Hen & Hrun).
  do 2 eexists. split; [exact Hrun|]. split; [exact Hen|]. simpl.
  split; [reflexivity|]. split; [reflexivity|]. split; [reflexivity|].
  split; [reflexivity|]. split; [reflexivity|].
  split; [reflexivity|]. split; [apply nth_store, Hr|].
  unfold listening. simpl. rewrite Nat.eqb_refl. reflexivity.
Qed.

Lemma connect_success_order_witness :
  exists w' enumeration,
    run (connectToDevice Scenario.r0 Scenario.polar) Cases.unnamed_link Scenario.w0
      = (Ok tt, w') /\
    forallb is_enumeration enumeration = true /\
    trace w' =
      (trace Scenario.w0 ++
         [console_log "Connecting to device:"; manager_stopDeviceScan;
          Call (manager_connectToDevice "AA:01");
          Call (discoverAllServicesAndCharacteristics Scenario.beacon);
          console_log "Connected to device:"; Call (services Scenario.beacon)] ++
         enumeration ++
         [Call (readCharacteristicForService
                  Scenario.beacon DEVICE_INFORMATION MANUFACTURER_NAME);
          Call (readCharacteristicForService
                  Scenario.beacon BATTERY_SERVICE BATTERY_LEVEL);
          console_log "Manufacturer:"; console_log "Battery Level:";
          console_log "Subscribing to heart rate notifications...";
          Call (monitorCharacteristicForService
                  Scenario.beacon HEART_RATE_SERVICE HEART_RATE_MEASUREMENT);
          Alert_alert "Connected" "Connected to CC:03"])%list /\
    connectedDevice (hooks w') = Some Scenario.beacon /\
    isConnecting (hooks w') = false /\
    isScanning (hooks w') = false /\
    sessionState (hooks w') = Connected /\
    devices (hooks w') = devices (hooks Scenario.w0) /\
    nth (rid Scenario.r0) (hrSubscription w') None = Some 7 /\
    listening 7 w' = true.
Proof.
  refine (connect_success_order Scenario.r0 Scenario.polar Cases.unnamed_link
            Scenario.w0 Scenario.beacon Scenario.beacon
            [Scenario.heartRateService] 7
            eq_refl (le_n 1) eq_refl eq_refl eq_refl _ eq_refl).
  intros x _. eexists. reflexivity.
Defined.

(** ** Notifications that carry no sample *)

(** X13. A notification that carries an error, no characteristic, or a
    characteristic whose value is null or the empty string leaves the hook
    cells as they are and does not throw; without an error it leaves the whole
    world as it is. *)
Theorem heartRateListener_skips `{BufferCodec} (o : Oracle) w error characteristic :
  (error <> None \/
   characteristic = None \/
   (exists c, characteristic = Some c /\ (value c = None \/ value c = Some ""))) ->
  exists w',
    run (heartRateListener error characteristic) o w = (Ok tt, w') /\
    hooks w' = hooks w /\
    hrSubscription w' = hrSubscription w /\
    monitors w' = monitors w /\
    (error = None -> w' = w).
Proof.
  intros Hcase. unfold heartRateListener.
  destruct error as [e|].
  - simpl. eexists. repeat split. discriminate.
  - destruct Hcase as [Hn | [-> | [c [-> [Hv | Hv]]]]]; [contradiction| | |];
      try rewrite Hv; simpl; exists w; repeat split.
Qed.

Lemma heartRateListener_skips_witness :
  exists w',
    run (heartRateListener None (Some (Scenario.measurement (Some ""))))
        Scenario.transport Scenario.w_connected = (Ok tt, w') /\
    hooks w' = hooks Scenario.w_connected /\
    hrSubscription w' = hrSubscription Scenario.w_connected /\
    monitors w' = monitors Scenario.w_connected /\
    (@None JsError = None -> w' = Scenario.w_connected).
Proof.
  apply (heartRateListener_skips Scenario.transport Scenario.w_connected None
           (Some (Scenario.measurement (Some "")))).
  right. right. eexists. split; [reflexivity|]. right. reflexivity.
Defined.

(** X14. A notification whose payload has exactly one byte makes the listener
    throw the range error of [readUInt8(1)]: [heartRate] is not set, and
    nothing in the listener catches the error. *)
Theorem heartRateListener_short_payload `{BufferCodec} (o : Oracle) w c v b0 :
  value c = Some v ->
  from_base64 v = [b0] ->
  run (heartRateListener None (Some c)) o w = (Throw RangeError, w).
Proof.
  intros Hv Hb. unfold heartRateListener. rewrite Hv.
  assert (Ht : truthy (Some v) = true).
  { simpl. destruct (String.eqb_spec v "") as [->|]; [|reflexivity].
    rewrite from_base64_empty in Hb. discriminate. }
  rewrite Ht. simpl. rewrite Hb. reflexivity.
Qed.

Lemma heartRateListener_short_payload_witness :
  run (heartRateListener None (Some (Scenario.measurement (Some "SA=="))))
      Scenario.transport Scenario.w_connected
  = (Throw RangeError, Scenario.w_connected).
Proof.
  exact (@heartRateListener_short_payload ReferenceCodec
           Scenario.transport Scenario.w_connected
           (Scenario.measurement (Some "SA==")) "SA==" x48 eq_refl eq_refl).
Defined.

(** ** Disconnecting *)

(** X15. When [hrSubscription.remove()] throws in [disconnectDevice], control
    goes to the [catch] block: the transport disconnect is never requested and
    the listener stays registered, yet the session is cleared. *)
Theorem disconnect_skipped_when_remove_throws `{BufferCodec} r dev s (o : Oracle) w e :
  connectedDevice (snap r) = Some dev ->
  nth (rid r) (hrSubscription w) None = Some s ->
  o (remove s) = Throw e ->
  run (disconnectDevice r) o w =
  (Ok tt,
   mkWorld (mkState (devices (hooks w)) (isScanning (hooks w)) None
                    (isConnecting (hooks w)) None None)
           (hrSubscription w) (monitors w)
           (trace w ++ [Call (remove s);
                        console_error "Disconnection error:" (message e)])).
Proof.
  intros Hc Hs Hr. unfold disconnectDevice. rewrite Hc.
  rewrite run_try_finally, run_try_catch. simpl. rewrite Hs. simpl. rewrite Hr.
  world. reflexivity.
Qed.

Lemma disconnect_skipped_when_remove_throws_witness :
  let o := Scenario.rejecting Cases.is_remove_request Scenario.timeout
                              Scenario.transport in
  let w' := snd (run (disconnectDevice Scenario.r_connected) o Cases.w_held) in
  existsb is_cancelConnection (trace w') = false /\
  connectedDevice (hooks w') = None /\
  listening 7 w' = true.
Proof.
  intros o w'. subst w'.
  rewrite (disconnect_skipped_when_remove_throws
             Scenario.r_connected Scenario.polar 7 o Cases.w_held Scenario.timeout
             eq_refl eq_refl eq_refl).
  repeat split.
Defined.

(** X16. [disconnectDevice] in a render whose variable holds no subscription
    requests the transport disconnect and nothing else; "Disconnected" is
    shown when it resolves, the error is logged and nothing is shown when it
    rejects, and the session is cleared in both cases. *)
Theorem disconnect_reports (o : Oracle) `{BufferCodec} r dev w :
  connectedDevice (snap r) = Some dev ->
  nth (rid r) (hrSubscription w) None = None ->
  run (disconnectDevice r) o w =
  (Ok tt,
   mkWorld (mkState (devices (hooks w)) (isScanning (hooks w)) None
                    (isConnecting (hooks w)) None None)
           (hrSubscription w) (monitors w)
           (trace w ++
              [Call (cancelConnection dev);
               match o (cancelConnection dev) with
               | Ok _ => Alert_alert "Disconnected" "Device disconnected successfully."
               | Throw e => console_error "Disconnection error:" (message e)
               end])).
Proof.
  intros Hc Hs. unfold disconnectDevice. rewrite Hc.
  rewrite run_try_finally, run_try_catch. simpl. rewrite Hs. simpl.
  destruct (o (cancelConnection dev)); world; reflexivity.
Qed.

Lemma disconnect_reports_witness :
  let o := Scenario.rejecting Scenario.is_cancel Scenario.timeout Scenario.transport in
  let w' := snd (run (disconnectDevice Scenario.r_connected) o Scenario.w_connected) in
  existsb (is_alert "Disconnected") (trace w') = false /\
  hd_error (rev (trace w'))
    = Some (console_error "Disconnection error:" "Operation timed out") /\
  connectedDevice (hooks w') = None.
Proof.
  intros o w'. subst w'.
  rewrite (disconnect_reports o Scenario.r_connected Scenario.polar
             Scenario.w_connected eq_refl eq_refl).
  split; [reflexivity|]. split; reflexivity.
Defined.

(** ** Resetting the list *)

Lemma run_resetList (o : Oracle) w :
  run resetList o w =
  (Ok tt,
   mkWorld (mkState [] (isScanning (hooks w)) None (isConnecting (hooks w)) None None)
           (hrSubscription w) (monitors w) (trace w)).
Proof. reflexivity. Qed.

(** X8. [resetList] clears the device list, the connected device, the device
    information and the heart rate, and nothing else: it sends nothing to the
    transport and the listeners stay registered.  In the next render the
    "Disconnect" button is gone and [disconnectDevice] does nothing, so a
    connection that was open stays open. *)
Theorem resetList_leaves_connection `{BufferCodec} (o : Oracle) w :
  let w1 := snd (run resetList o w) in
  fst (run resetList o w) = Ok tt /\
  hooks w1 = mkState [] (isScanning (hooks w)) None (isConnecting (hooks w)) None None /\
  trace w1 = trace w /\
  monitors w1 = monitors w /\
  disconnectButton_shown (snap (fst (render w1))) = false /\
  run (disconnectDevice (fst (render w1))) o (snd (render w1))
    = (Ok tt, snd (render w1)).
Proof.
  rewrite run_resetList. simpl. repeat split.
Qed.

(** X9. After [resetList] the heart-rate listener of a subscription that was
    live is still called: the next notification sets [heartRate] again although
    no device is shown as connected. *)
Theorem notification_after_reset `{BufferCodec} (o : Oracle) w s c v b0 b1 rest :
  listening s w = true ->
  value c = Some v ->
  from_base64 v = b0 :: b1 :: rest ->
  let w1 := snd (run resetList o w) in
  heartRate (hooks w1) = None /\
  connectedDevice (hooks w1) = None /\
  heartRate (hooks (snd (run (notify s None (Some c)) o w1))) = Some (byte_to_Z b1).
Proof.
  intros Hs Hv Hb w1. subst w1. rewrite run_resetList. simpl.
  split; [reflexivity|]. split; [reflexivity|].
  unfold listening in *. simpl. rewrite Hs. simpl. rewrite Hv.
  assert (Ht : truthy (Some v) = true).
  { simpl. destruct (String.eqb_spec v "") as [->|]; [|reflexivity].
    rewrite from_base64_empty in Hb. discriminate. }
  rewrite Ht. simpl. rewrite Hb. reflexivity.
Qed.

Lemma notification_after_reset_witness :
  let w1 := snd (run resetList Scenario.transport Scenario.w_connected) in
  heartRate (hooks w1) = None /\
  connectedDevice (hooks w1) = None /\
  heartRate (hooks (snd (run (notify 7 None (Some (Scenario.measurement (Some "AEs="))))
                             Scenario.transport w1))) = Some 75%Z.
Proof.
  exact (@notification_after_reset ReferenceCodec Scenario.transport
           Scenario.w_connected 7 (Scenario.measurement (Some "AEs=")) "AEs="
           x00 x4b [] eq_refl eq_refl eq_refl).
Defined.

(** ** Unmounting *)

(** X17. The cleanup of the mount effect runs with the values of the mount
    render, in which no device is connected: it requests the scan stop and the
    removal of the state subscription, and never a transport disconnect.  When
    the mount render's variable holds no subscription, the listeners are kept
    too, whatever session exists at that time. *)
Theorem unmountCleanup_leaves_connection r subscription (o : Oracle) w :
  snap r = initialState ->
  nth (rid r) (hrSubscription w) None = None ->
  run (unmountCleanup r subscription) o w =
  (match o (remove subscription) with
   | Ok _ => Ok tt
   | Throw e => Throw e
   end,
   mkWorld (hooks w) (hrSubscription w) (monitors w)
           (trace w ++ [manager_stopDeviceScan; Call (remove subscription)])).
Proof.
  intros Hr Hs. unfold unmountCleanup. rewrite Hr. simpl.
  destruct (o (remove subscription)) as [[]|e]; simpl.
  - rewrite Hs. world. reflexivity.
  - world. reflexivity.
Qed.

Lemma unmountCleanup_leaves_connection_witness :
  let w' := snd (run (unmountCleanup Scenario.r0 99) Scenario.transport Cases.w_session) in
  connectedDevice (hooks Cases.w_session) = Some Scenario.polar /\
  listening 7 Cases.w_session = true /\
  existsb is_cancelConnection (trace w') = false /\
  listening 7 w' = true.
Proof.
  intros w'. subst w'.
  rewrite (unmountCleanup_leaves_connection Scenario.r0 99 Scenario.transport
             Cases.w_session eq_refl eq_refl).
  repeat split.
Defined.

(** ** The rendered list *)

Lemma deliver_scan_session (o : Oracle) evs : forall w,
  connectedDevice (hooks (deliver_scan o evs w)) = connectedDevice (hooks w) /\
  isConnecting (hooks (deliver_scan o evs w)) = isConnecting (hooks w).
Proof.
  unfold deliver_scan.
  induction evs as [|ev evs IH]; intros w; simpl; [split; reflexivity|].
  destruct (IH (step_scan o w ev)) as [Hc Hi].
  destruct (step_scan_frame o w ev) as (_ & _ & Hc1 & Hi1 & _).
  split; congruence.
Qed.

(** X18. The rows rendered for the result of a scan have distinct keys, and
    each shows the identity and the advertised name of an accepted
    advertisement, never the "Unknown Device" fallback; none is marked as
    connected. *)
Theorem scanned_rows_named r (o : Oracle) w evs :
  isScanning (snap r) = false ->
  o manager_state = Ok PoweredOn ->
  let s := hooks (deliver_scan o evs (snd (run (scanDevices r) o w))) in
  NoDup (map fst (listRows s)) /\
  Forall (fun kr : string * Row =>
            exists d, In d (accepted evs) /\
                      fst kr = id d /\
                      row_id (snd kr) = id d /\
                      name d = Some (row_name (snd kr)) /\
                      row_connected (snd kr) = false)
         (listRows s).
Proof.
  intros H Hs s.
  assert (Hd : devices s = first_seen (accepted evs)).
  { subst s. apply deliver_scan_from_empty.
    rewrite (run_scanDevices r o w H Hs). reflexivity. }
  assert (Hc : connectedDevice s = None).
  { subst s. destruct (deliver_scan_session o evs (snd (run (scanDevices r) o w))) as [-> _].
    rewrite (run_scanDevices r o w H Hs). reflexivity. }
  unfold listRows. rewrite Hd. split.
  - rewrite map_map. simpl. apply first_seen_NoDup.
  - rewrite Forall_forall. intros kr Hin. apply in_map_iff in Hin.
    destruct Hin as [d [<- Hin]]. apply first_seen_incl in Hin.
    exists d. split; [exact Hin|]. unfold renderItem, keyExtractor. simpl.
    rewrite Hc. repeat split.
    destruct (accepted_named evs d Hin) as [n [Hn Hne]].
    rewrite Hn. simpl. destruct (String.eqb_spec n ""); [contradiction|reflexivity].
Qed.

Lemma scanned_rows_named_witness :
  let s := hooks (deliver_scan Scenario.transport Scenario.adverts
                    (snd (run (scanDevices Scenario.r0) Scenario.transport Scenario.w0))) in
  map (fun kr : string * Row => row_name (snd kr)) (listRows s) = ["Polar H10"; "Strap"] /\
  NoDup (map fst (listRows s)).
Proof.
  intros s. split; [reflexivity|].
  exact (proj1 (scanned_rows_named Scenario.r0 Scenario.transport Scenario.w0
                  Scenario.adverts eq_refl eq_refl)).
Defined.

(** X19. The [disabled] attributes are at least as strict as the handlers'
    guards: a row that is enabled belongs to a render in which [isConnecting]
    is false and is not the connected device, and pressing it reaches the
    transport connect; an enabled scan button reaches [manager.state()]; and
    while [isConnecting] is true every row and both buttons are disabled. *)
Theorem enabled_controls_pass_guards `{BufferCodec} r item (o : Oracle) w :
  (row_disabled (renderItem (snap r) item) = false ->
   isConnecting (snap r) = false /\
   row_connected (renderItem (snap r) item) = false /\
   exists k, fst (advance (connectToDevice r item) o w)
             = Ask (manager_connectToDevice (id item)) k) /\
  (scanButton_disabled (snap r) = false ->
   isConnecting (snap r) = false /\
   exists k, fst (advance (scanDevices r) o w) = Ask manager_state k) /\
  (isConnecting (snap r) = true ->
   row_disabled (renderItem (snap r) item) = true /\
   scanButton_disabled (snap r) = true /\
   resetButton_disabled (snap r) = true).
Proof.
  unfold renderItem, scanButton_disabled, resetButton_disabled. simpl.
  split; [|split].
  - intros Hd. apply orb_false_iff in Hd. destruct Hd as [Hc Hi].
    split; [exact Hc|]. split; [exact Hi|].
    unfold connectToDevice. rewrite Hc. eexists. reflexivity.
  - intros Hd. apply orb_false_iff in Hd. destruct Hd as [Hs Hc].
    split; [exact Hc|]. unfold scanDevices. rewrite Hs. eexists. reflexivity.
  - intros Hc. rewrite Hc. rewrite !orb_true_r. repeat split.
Qed.

Lemma enabled_controls_pass_guards_witness :
  row_disabled (renderItem (snap Scenario.r_scanning) Scenario.polar) = false /\
  exists k, fst (advance (connectToDevice Scenario.r_scanning Scenario.polar)
                         Scenario.transport Scenario.w_scanning)
            = Ask (manager_connectToDevice "AA:01") k.
Proof.
  split; [reflexivity|].
  destruct (enabled_controls_pass_guards Scenario.r_scanning Scenario.polar
              Scenario.transport Scenario.w_scanning) as [Hrow _].
  destruct (Hrow eq_refl) as (_ & _ & Hk). exact Hk.
Defined.

(** ** Payloads without a value *)

(** X20. A read that resolves with a null value gives "N/A" for its field.  A
    read that resolves with an empty payload gives the empty text for the
    manufacturer, but "N/A" for the battery, whose [readUInt8(0)] throws. *)
Theorem null_and_empty_payloads `{BufferCodec} device (o : Oracle) w cm cb :
  o (readCharacteristicForService device DEVICE_INFORMATION MANUFACTURER_NAME) = Ok cm ->
  o (readCharacteristicForService device BATTERY_SERVICE BATTERY_LEVEL) = Ok cb ->
  let info := deviceInfo (hooks (snd (run (readDeviceInfoAndBattery device) o w))) in
  (value cm = None -> value cb = None ->
   info = Some (mkDeviceInfo "N/A" (VStr "N/A"))) /\
  (value cm = Some "" -> value cb = Some "" ->
   info = Some (mkDeviceInfo (toString_utf8 []) (VStr "N/A"))).
Proof.
  intros Hm Hb info. subst info. rewrite run_readDeviceInfoAndBattery. simpl.
  unfold subread_text, subread_uint8. rewrite Hm, Hb.
  split; intros Hvm Hvb; rewrite Hvm, Hvb; simpl;
    rewrite ?from_base64_empty; reflexivity.
Qed.

Lemma null_and_empty_payloads_witness :
  deviceInfo (hooks (snd (run (readDeviceInfoAndBattery Scenario.polar)
                              Cases.empty_payloads Scenario.w0)))
  = Some (mkDeviceInfo "" (VStr "N/A")).
Proof.
  destruct (@null_and_empty_payloads ReferenceCodec Scenario.polar
              Cases.empty_payloads Scenario.w0
              (mkCharacteristic MANUFACTURER_NAME true false false (Some ""))
              (mkCharacteristic BATTERY_LEVEL true false false (Some ""))
              eq_refl eq_refl) as [_ Hempty].
  exact (Hempty eq_refl eq_refl).
Defined.

(** ** The per-render variable *)

Lemma nth_store_other {A} (l : list A) i j v d :
  i <> j -> nth i (store j v l) d = nth i l d.
Proof.
  revert i j. induction l as [|x l IH]; intros [|i] [|j] Hij; simpl;
    try reflexivity; try contradiction.
  apply IH. congruence.
Qed.

Lemma others_untouched_refl r w : others_untouched r w w.
Proof. intros i _. reflexivity. Qed.

Lemma others_untouched_trans r a b c :
  others_untouched r a b -> others_untouched r b c -> others_untouched r a c.
Proof.
  intros H1 H2 i Hi. rewrite (H2 i Hi). apply H1, Hi.
Qed.

Ltac untouched_leaf :=
  intros ?i ?Hi; simpl; first [reflexivity | apply nth_store_other; assumption].

Lemma connectToDevice_others `{BufferCodec} r device :
  steps_in (others_untouched r) (connectToDevice r device).
Proof.
  unfold connectToDevice. steps ltac:(idtac; untouched_leaf).
Qed.

(** X22. [connectToDevice] assigns the [hrSubscription] variable of the render
    it was called in and of no other: every other render reads in its own
    variable what it read before. *)
Theorem subscription_private_to_render `{BufferCodec} r device (o : Oracle) w r' :
  rid r' <> rid r ->
  nth (rid r') (hrSubscription (snd (run (connectToDevice r device) o w))) None
  = nth (rid r') (hrSubscription w) None.
Proof.
  intros Hr.
  apply (run_steps_in (others_untouched r) (others_untouched_refl r)
           (others_untouched_trans r) _ o (connectToDevice_others r device) w).
  exact Hr.
Qed.

Lemma subscription_private_to_render_witness :
  let w' := snd (run (connectToDevice Scenario.r_scanning Scenario.polar)
                     Scenario.transport (snd (render Scenario.w_scanning))) in
  nth (rid Scenario.r_scanning) (hrSubscription w') None = Some 7 /\
  nth (rid (fst (render Scenario.w_scanning))) (hrSubscription w') None = None.
Proof.
  intros w'. split; [reflexivity|]. subst w'.
  rewrite (subscription_private_to_render Scenario.r_scanning Scenario.polar
             Scenario.transport (snd (render Scenario.w_scanning))
             (fst (render Scenario.w_scanning))).
  - reflexivity.
  - discriminate.
Defined.
